(** * otelex: the BigQuery span-attribute exporter

    A shallow embedding of [internal/spattex/bigquery]: the row builder
    ([buildRows], [addKeyValue]), the schema synchroniser ([updateSchema])
    and the batch inserter ([sendRows], with its older sibling
    [insertRows]), followed by the properties the specification states
    about them.

    Conventions.
    - Go maps are [gmap]s; a [range] over a Go map visits the entries in an
      unspecified order, so the loops of [updateSchema] take, for every row,
      one enumeration of its entries ([RangeOrders]).
    - A [pcommon.Map] is slice backed and ordered: it is an association list.
    - The remote table is an oracle over an abstract world [W]; every remote
      call, sleep and printed line is recorded in a trace of [Event]s. *)

From Stdlib Require Import ZArith String Ascii List Strings.Byte.
From stdpp Require Import gmap strings list fin_maps.

Set Warnings "-register-all,-clear-no-such-hyp".

Open Scope string_scope.
Open Scope Z_scope.
Open Scope list_scope.

(** ** pdata: attribute values and traces *)

Module pcommon.

(** [pcommon.ValueType]. *)
Inductive ValueType :=
| ValueTypeEmpty
| ValueTypeStr
| ValueTypeInt
| ValueTypeDouble
| ValueTypeBool
| ValueTypeMap
| ValueTypeSlice
| ValueTypeBytes.

(** A Go [float64], carried as its IEEE 754 binary64 bit pattern; the
    exporter never computes with it. *)
Definition float64 := Z.

(** [pcommon.Value]: a tagged union; [Map] is an ordered list of
    key/value pairs. *)
Inductive Value :=
| NewValueEmpty
| NewValueStr (s : string)
| NewValueInt (i : Z)
| NewValueDouble (d : float64)
| NewValueBool (b : bool)
| NewValueMap (m : list (string * Value))
| NewValueSlice (l : list Value)
| NewValueBytes (bs : list byte).

Abbreviation Map := (list (string * Value)).
Abbreviation Slice := (list Value).
Abbreviation ByteSlice := (list byte).

Definition Type_ (v : Value) : ValueType :=
  match v with
  | NewValueEmpty => ValueTypeEmpty
  | NewValueStr _ => ValueTypeStr
  | NewValueInt _ => ValueTypeInt
  | NewValueDouble _ => ValueTypeDouble
  | NewValueBool _ => ValueTypeBool
  | NewValueMap _ => ValueTypeMap
  | NewValueSlice _ => ValueTypeSlice
  | NewValueBytes _ => ValueTypeBytes
  end.

(** The accessors return the zero value on a value of another type. *)
Definition Str (v : Value) : string :=
  match v with NewValueStr s => s | _ => "" end.
Definition Int (v : Value) : Z :=
  match v with NewValueInt i => i | _ => 0 end.
Definition Double (v : Value) : float64 :=
  match v with NewValueDouble d => d | _ => 0 end.
Definition Bool (v : Value) : bool :=
  match v with NewValueBool b => b | _ => false end.
Definition Map_ (v : Value) : Map :=
  match v with NewValueMap m => m | _ => [] end.
Definition Slice_ (v : Value) : Slice :=
  match v with NewValueSlice l => l | _ => [] end.
Definition Bytes (v : Value) : ByteSlice :=
  match v with NewValueBytes bs => bs | _ => [] end.

(** [Map.Range]: calls [f] on every entry in order and stops as soon as
    [f] returns false. The callback's effect on what it closes over is
    threaded as the state [A]. *)
Fixpoint Range {A} (m : Map) (f : string -> Value -> A -> A * bool) (a : A) : A :=
  match m with
  | [] => a
  | (k, v) :: m' =>
      let '(a', continue) := f k v a in
      if continue then Range m' f a' else a'
  end.

End pcommon.

Module ptrace.

Record Span := { Name : string; Attributes : pcommon.Map }.
Record ScopeSpans := { Spans : list Span }.
Record ResourceSpans :=
  { Resource_Attributes : pcommon.Map; ScopeSpans_ : list ScopeSpans }.

(** [ptrace.Traces], seen through [ResourceSpans()]. *)
Abbreviation Traces := (list ResourceSpans).

End ptrace.

(** ** Go values stored in a row *)

(** The dynamic values ([interface{}]) a row holds: what [addKeyValue]
    stores, and [uint8], which the type switch of [updateSchema] names as
    [byte]. *)
Inductive goValue :=
| GoBool (b : bool)
| GoByteSlice (bs : pcommon.ByteSlice)
| GoFloat64 (d : pcommon.float64)
| GoInt64 (i : Z)
| GoMap (m : pcommon.Map)
| GoSlice (l : pcommon.Slice)
| GoString (s : string)
| GoUint8 (b : byte).

(** [reflect.TypeOf(value).String()]. *)
Definition TypeOf_String (value : goValue) : string :=
  match value with
  | GoBool _ => "bool"
  | GoByteSlice _ => "pcommon.ByteSlice"
  | GoFloat64 _ => "float64"
  | GoInt64 _ => "int64"
  | GoMap _ => "pcommon.Map"
  | GoSlice _ => "pcommon.Slice"
  | GoString _ => "string"
  | GoUint8 _ => "uint8"
  end.

(** [type bigqueryrow map[string]interface{}] *)
Abbreviation bigqueryrow := (gmap string goValue).

(** ** rows_builder.go *)

(** [strings.Replace(s, old, new, -1)] for one-byte [old] and [new]. *)
Fixpoint Replace (s : string) (old new : ascii) : string :=
  match s with
  | EmptyString => EmptyString
  | String c s' =>
      String (if Ascii.eqb c old then new else c) (Replace s' old new)
  end.

(** The name under which [addKeyValue] stores key [k]. *)
Definition fieldName (k : string) : string := Replace k "." "_".

Definition addKeyValue (k : string) (v : pcommon.Value) (row : bigqueryrow)
  : bigqueryrow :=
  let k := fieldName k in
  match pcommon.Type_ v with
  | pcommon.ValueTypeBool => <[k := GoBool (pcommon.Bool v)]> row
  | pcommon.ValueTypeBytes => <[k := GoByteSlice (pcommon.Bytes v)]> row
  | pcommon.ValueTypeDouble => <[k := GoFloat64 (pcommon.Double v)]> row
  | pcommon.ValueTypeInt => <[k := GoInt64 (pcommon.Int v)]> row
  | pcommon.ValueTypeMap => <[k := GoMap (pcommon.Map_ v)]> row
  | pcommon.ValueTypeSlice => <[k := GoSlice (pcommon.Slice_ v)]> row
  | pcommon.ValueTypeStr => <[k := GoString (pcommon.Str v)]> row
  | pcommon.ValueTypeEmpty => row (* no case and no default in the switch *)
  end.

(** The body of the innermost loop of [buildRows]: the row of one span. *)
Definition spanRow (rattrs : pcommon.Map) (span : ptrace.Span) : bigqueryrow :=
  let row : bigqueryrow := {[ "name" := GoString (ptrace.Name span) ]} in
  let row := pcommon.Range rattrs (fun k v row => (addKeyValue k v row, true)) row in
  let row :=
    pcommon.Range (ptrace.Attributes span)
      (fun k v row => (addKeyValue k v row, true)) row in
  row.

(** The three nested index loops, each appending to [rows]. *)
Definition buildRows (td : ptrace.Traces) : list bigqueryrow :=
  foldl (fun rows rspan =>
    foldl (fun rows sspan =>
      foldl (fun rows span =>
        rows ++ [spanRow (ptrace.Resource_Attributes rspan) span])
        rows (ptrace.Spans sspan))
      rows (ptrace.ScopeSpans_ rspan))
    [] td.

(** ** cloud.google.com/go/bigquery, as far as the exporter uses it *)

Module bigquery.

(** [bigquery.FieldType], a Go string type: the constants of the client
    library, and the zero value (the empty string). *)
Inductive FieldType :=
| StringFieldType
| BytesFieldType
| IntegerFieldType
| FloatFieldType
| BooleanFieldType
| TimestampFieldType
| RecordFieldType
| DateFieldType
| TimeFieldType
| DateTimeFieldType
| NumericFieldType
| GeographyFieldType
| BigNumericFieldType
| IntervalFieldType
| JSONFieldType
| RangeFieldType
| ZeroFieldType.

Definition FieldType_String (t : FieldType) : string :=
  match t with
  | StringFieldType => "STRING"
  | BytesFieldType => "BYTES"
  | IntegerFieldType => "INTEGER"
  | FloatFieldType => "FLOAT"
  | BooleanFieldType => "BOOLEAN"
  | TimestampFieldType => "TIMESTAMP"
  | RecordFieldType => "RECORD"
  | DateFieldType => "DATE"
  | TimeFieldType => "TIME"
  | DateTimeFieldType => "DATETIME"
  | NumericFieldType => "NUMERIC"
  | GeographyFieldType => "GEOGRAPHY"
  | BigNumericFieldType => "BIGNUMERIC"
  | IntervalFieldType => "INTERVAL"
  | JSONFieldType => "JSON"
  | RangeFieldType => "RANGE"
  | ZeroFieldType => ""
  end.

(** [bigquery.FieldSchema]: the fields the exporter reads or sets;
    [Required] is false in a composite literal that omits it. *)
Record FieldSchema :=
  { Name : string; Type_ : FieldType; Required : bool }.

Abbreviation Schema := (list FieldSchema).

Record TableMetadata := { Schema_ : Schema; ETag : string }.

Record TableMetadataToUpdate := { Schema_update : Schema }.

(** A Go [error], by its [Error()] text; [nil] is [None]. *)
Definition error := string.

(** The remote table behind a [*bigquery.Table] handle: an oracle over
    the state [W] of the world. *)
Record Table (W : Type) :=
  { Put_ : list bigqueryrow -> W -> option error * W;
    Metadata_ : W -> (TableMetadata + error) * W;
    Update_ : TableMetadataToUpdate -> string -> W -> option error * W }.
Arguments Put_ {W}.
Arguments Metadata_ {W}.
Arguments Update_ {W}.

End bigquery.

(** ** Effects: remote calls, sleeping and printing *)

(** What [fmt.Printf] and [fmt.Println] write, by message and arguments. *)
Inductive Line :=
| ErrorPushingTraces (err : bigquery.error)
| WaitingForSchema (wait : Z)
| RetryingInsert
| SchemaFieldMismatch (key valueType : string)
| UnsupportedType (key valueType : string)
| UpdatingSchemaField (key : string) (fieldType : bigquery.FieldType)
| UpdatingSchemaCount (n : nat).

Inductive Event :=
| Put (rows : list bigqueryrow)
| Metadata
| Update (tm : bigquery.TableMetadataToUpdate) (etag : string)
| Sleep (d : Z)
| Printf (l : Line).

(** A computation over the world [W] returns a result, the next world and
    the events it caused, oldest first. *)
Definition M (W A : Type) : Type := W -> A * W * list Event.

Definition ret {W A} (a : A) : M W A := fun w => (a, w, []).

Definition bind {W A B} (m : M W A) (f : A -> M W B) : M W B :=
  fun w =>
    let '(a, w1, t1) := m w in
    let '(b, w2, t2) := f a w1 in
    (b, w2, t1 ++ t2).

Notation "'let*' x ':=' m 'in' k" := (bind m (fun x => k))
  (at level 10, x pattern, m at level 100, k at level 200).

Definition emit {W} (e : Event) : M W unit := fun w => (tt, w, [e]).

(** [for _, a := range l { s = body(s, a) }] *)
Fixpoint rangeFold {W A S} (l : list A) (body : S -> A -> M W S) (s : S) : M W S :=
  match l with
  | [] => ret s
  | a :: l' => let* s' := body s a in rangeFold l' body s'
  end.

(** [time.Second], a [time.Duration] in nanoseconds. *)
Definition Second : Z := 1000000000.
Definition Minute : Z := 60 * Second.

(** [strings.Contains(s, substr)] *)
Fixpoint Contains (s substr : string) : bool :=
  if String.prefix substr s then true
  else match s with
       | EmptyString => false
       | String _ s' => Contains s' substr
       end.

(** Indexing a Go map yields the zero value of a missing key. *)
Definition index {V} (zero : V) (m : gmap string V) (k : string) : V :=
  default zero (m !! k).

(** ** The exporter: configuration, schema synchroniser, batch inserter *)

Record Config :=
  { ProjectID : string;
    Dataset : string;
    Table : string;
    SchemaFlexible : bool }.

(** [Config.Validate] *)
Definition Validate (cfg : Config) : option bigquery.error :=
  if String.eqb (ProjectID cfg) "" then Some "projectID required for BigQuery API"
  else if String.eqb (Dataset cfg) "" then Some "dataset required for BigQuery API"
  else if String.eqb (Table cfg) "" then Some "table required for BigQuery API"
  else None.

(** [bigquerySender]: the embedded configuration and the client, which
    resolves a dataset and a table name to a table handle. *)
Record bigquerySender (W : Type) :=
  { sender_Config : Config;
    bigqueryClient : string -> string -> bigquery.Table W }.
Arguments sender_Config {W}.
Arguments bigqueryClient {W}.

(** The locals of [updateSchema] that its second loop updates. *)
Record syncState :=
  { knownFields : gmap string bool;
    knownFieldsTypes : gmap string string;
    metaUpdate_Schema : bigquery.Schema;
    newFields : gmap string bool }.

(** The first [switch] of [updateSchema]: the Go type name recorded for a
    remote field type, [None] in the [default] case. *)
Definition knownFieldType (t : bigquery.FieldType) : option string :=
  match t with
  | bigquery.BigNumericFieldType => Some "float64"
  | bigquery.BooleanFieldType => Some "bool"
  | bigquery.BytesFieldType => Some "byte"
  | bigquery.NumericFieldType => Some "int64"
  | bigquery.StringFieldType => Some "string"
  | bigquery.TimestampFieldType => Some "int64"
  | _ => None
  end.

(** The loop over [meta.Schema], which returns from [updateSchema] with an
    error at the first field of another type. *)
Fixpoint knownLoop (schema : bigquery.Schema)
    (knownFields : gmap string bool) (knownFieldsTypes : gmap string string)
  : (gmap string bool * gmap string string) + bigquery.error :=
  match schema with
  | [] => inl (knownFields, knownFieldsTypes)
  | field :: schema' =>
      let knownFields := <[bigquery.Name field := true]> knownFields in
      match knownFieldType (bigquery.Type_ field) with
      | Some goType =>
          knownLoop schema' knownFields
            (<[bigquery.Name field := goType]> knownFieldsTypes)
      | None =>
          inr ("BigQuery field type "
                 +:+ bigquery.FieldType_String (bigquery.Type_ field)
                 +:+ " incompatible with span attribute value types")
      end
  end.

Section Exporter.

Context {W : Type}.

(** The order in which [range] visits the entries of the [i]-th row. *)
Variable rangeOrder : nat -> bigqueryrow -> list (string * goValue).

Definition Inserter_Put (table : bigquery.Table W) (rows : list bigqueryrow)
  : M W (option bigquery.error) :=
  fun w => let '(err, w') := bigquery.Put_ table rows w in (err, w', [Put rows]).

Definition Table_Metadata (table : bigquery.Table W)
  : M W (bigquery.TableMetadata + bigquery.error) :=
  fun w => let '(r, w') := bigquery.Metadata_ table w in (r, w', [Metadata]).

Definition Table_Update (table : bigquery.Table W)
    (tm : bigquery.TableMetadataToUpdate) (etag : string)
  : M W (option bigquery.error) :=
  fun w =>
    let '(err, w') := bigquery.Update_ table tm etag w in
    (err, w', [Update tm etag]).

Definition time_Sleep (d : Z) : M W unit := emit (Sleep d).
Definition fmt_Printf (l : Line) : M W unit := emit (Printf l).

(** The cases of the type switch on a new field's value, [None] for
    [default]; Go's [byte] is [uint8]. *)
Definition typeSwitch (value : goValue) : option bigquery.FieldType :=
  match value with
  | GoBool _ => Some bigquery.BooleanFieldType
  | GoUint8 _ => Some bigquery.BytesFieldType
  | GoFloat64 _ => Some bigquery.BigNumericFieldType
  | GoInt64 _ => Some bigquery.NumericFieldType
  | GoString _ => Some bigquery.StringFieldType
  | _ => None
  end.

(** [var fieldType bigquery.FieldType] and the statement that sets it:
    the [default] case prints and leaves the zero value. *)
Definition newFieldType (key : string) (value : goValue)
  : M W bigquery.FieldType :=
  if String.eqb key "ts" then ret bigquery.TimestampFieldType
  else
    match typeSwitch value with
    | Some fieldType => ret fieldType
    | None =>
        let* _ := fmt_Printf (UnsupportedType key (TypeOf_String value)) in
        ret bigquery.ZeroFieldType
    end.

(** The body of the inner loop of [updateSchema], for one entry of a row. *)
Definition fieldBody (st : syncState) (entry : string * goValue)
  : M W syncState :=
  let '(key, value) := entry in
  let valueType := TypeOf_String value in
  let* _ :=
    (if index false (knownFields st) key then
       if negb (String.eqb (index "" (knownFieldsTypes st) key) valueType)
       then fmt_Printf (SchemaFieldMismatch key valueType)
       else ret tt
     else ret tt) in
  if negb (index false (knownFields st) key) then
    let* fieldType := newFieldType key value in
    let* _ := fmt_Printf (UpdatingSchemaField key fieldType) in
    ret {| knownFields := <[key := true]> (knownFields st);
           knownFieldsTypes := <[key := valueType]> (knownFieldsTypes st);
           metaUpdate_Schema :=
             metaUpdate_Schema st
               ++ [ {| bigquery.Name := key;
                       bigquery.Type_ := fieldType;
                       bigquery.Required := false |} ];
           newFields := <[key := true]> (newFields st) |}
  else ret st.

(** The two nested [range] loops over the rows and their entries. *)
Definition rowsLoop (views : list (list (string * goValue))) (st : syncState)
  : M W syncState :=
  rangeFold views (fun st view => rangeFold view fieldBody st) st.

Definition updateSchema (table : bigquery.Table W) (rows : list bigqueryrow)
  : M W (option bigquery.error) :=
  let* r := Table_Metadata table in
  match r with
  | inr err => ret (Some ("table metadata: " +:+ err))
  | inl meta =>
      match knownLoop (bigquery.Schema_ meta) ∅ ∅ with
      | inr err => ret (Some err)
      | inl (knownFields0, knownFieldsTypes0) =>
          let* st :=
            rowsLoop (imap rangeOrder rows)
              {| knownFields := knownFields0;
                 knownFieldsTypes := knownFieldsTypes0;
                 metaUpdate_Schema := bigquery.Schema_ meta;
                 newFields := ∅ |} in
          if Nat.eqb (size (newFields st)) 0 then ret None
          else
            let* _ := fmt_Printf (UpdatingSchemaCount (size (newFields st))) in
            let* err :=
              Table_Update table
                {| bigquery.Schema_update := metaUpdate_Schema st |}
                (bigquery.ETag meta) in
            match err with
            | Some err => ret (Some ("unable to update schema: " +:+ err))
            | None => ret None
            end
      end
  end.

(** [sendRows] of the exporter with the flexible-schema flag. *)
Definition sendRows (sender : bigquerySender W) (rows : list bigqueryrow)
  : M W (option bigquery.error) :=
  let table :=
    bigqueryClient sender (Dataset (sender_Config sender))
      (Table (sender_Config sender)) in
  let* err := Inserter_Put table rows in
  match err with
  | Some e =>
      if Contains e "no such field" then
        if SchemaFlexible (sender_Config sender) then
          let* err := updateSchema table rows in
          match err with
          | Some err => ret (Some err)
          | None =>
              let wait := 60 * Second in
              let* _ := fmt_Printf (WaitingForSchema wait) in
              let* _ := time_Sleep wait in
              let* _ := fmt_Printf RetryingInsert in
              Inserter_Put table rows
          end
        else ret err
      else ret err
  | None => ret err
  end.

(** [consumeTraces]: build the rows, send them, print a failure. *)
Definition consumeTraces (sender : bigquerySender W) (td : ptrace.Traces)
  : M W (option bigquery.error) :=
  let rows := buildRows td in
  let* err := sendRows sender rows in
  match err with
  | Some e => let* _ := fmt_Printf (ErrorPushingTraces e) in ret err
  | None => ret err
  end.

(** [insertRows] of the older exporter file, which consults no flag. Its
    own [updateSchema] is taken as the parameter [sync]. *)
Definition insertRows (sync : bigquery.Table W -> list bigqueryrow -> M W (option bigquery.error))
    (sender : bigquerySender W) (rows : list bigqueryrow)
  : M W (option bigquery.error) :=
  let table :=
    bigqueryClient sender (Dataset (sender_Config sender))
      (Table (sender_Config sender)) in
  let* err := Inserter_Put table rows in
  match err with
  | Some e =>
      if Contains e "no such field" then
        let* err := sync table rows in
        match err with
        | Some err => ret (Some err)
        | None =>
            let wait := 1 * Minute in
            let* _ := fmt_Printf (WaitingForSchema wait) in
            let* _ := time_Sleep wait in
            let* _ := fmt_Printf RetryingInsert in
            Inserter_Put table rows
        end
      else ret err
  | None => ret err
  end.

End Exporter.

(** ** Observations on traces and on inputs *)

(** The alteration requests of a trace, with their version tokens. *)
Definition updatesOf (t : list Event) : list (bigquery.Schema * string) :=
  omap (fun e =>
          match e with
          | Update tm etag => Some (bigquery.Schema_update tm, etag)
          | _ => None
          end) t.

(** The batches a trace submits for insertion. *)
Definition putsOf (t : list Event) : list (list bigqueryrow) :=
  omap (fun e => match e with Put rows => Some rows | _ => None end) t.

(** The number of schema fetches of a trace. *)
Definition fetchesOf (t : list Event) : nat :=
  length (omap (fun e => match e with Metadata => Some tt | _ => None end) t).

(** The waits of a trace. *)
Definition sleepsOf (t : list Event) : list Z :=
  omap (fun e => match e with Sleep d => Some d | _ => None end) t.

(** The lines a trace prints. *)
Definition linesOf (t : list Event) : list Line :=
  omap (fun e => match e with Printf l => Some l | _ => None end) t.

(** The leaf records of a batch in traversal order, each with the
    attributes of its resource group. *)
Definition leaves (td : ptrace.Traces) : list (pcommon.Map * ptrace.Span) :=
  flat_map (fun rspan =>
    flat_map (fun sspan =>
      map (fun span => (ptrace.Resource_Attributes rspan, span))
          (ptrace.Spans sspan))
      (ptrace.ScopeSpans_ rspan)) td.

(** The seven kinds [addKeyValue] has a case for. *)
Definition recognized (t : pcommon.ValueType) : bool :=
  match t with
  | pcommon.ValueTypeEmpty => false
  | _ => true
  end.

(** No attribute in [attrs] is written under the field name [f]. *)
Definition writesNothingAt (f : string) (attrs : pcommon.Map) : Prop :=
  forall k v, (k, v) ∈ attrs -> fieldName k = f ->
              recognized (pcommon.Type_ v) = false.

(** What the code computes apart from the world: the field type
    [newFieldType] returns, and the state and the lines of the loops of
    [updateSchema], read off a run in the unit world. *)
Definition inferredType (key : string) (value : goValue) : bigquery.FieldType :=
  (newFieldType (W:=unit) key value tt).1.1.

Definition fieldStep (st : syncState) (entry : string * goValue) : syncState :=
  (fieldBody (W:=unit) st entry tt).1.1.

Definition fieldLines (st : syncState) (entry : string * goValue) : list Line :=
  linesOf (fieldBody (W:=unit) st entry tt).2.

Definition loopState (entries : list (string * goValue)) (st : syncState)
  : syncState :=
  (rangeFold (W:=unit) entries fieldBody st tt).1.1.

Definition loopLines (entries : list (string * goValue)) (st : syncState)
  : list Line :=
  linesOf (rangeFold (W:=unit) entries fieldBody st tt).2.

(** The state with which the second loop of [updateSchema] starts. *)
Definition initialState (meta : bigquery.TableMetadata)
    (known : gmap string bool * gmap string string) : syncState :=
  {| knownFields := known.1;
     knownFieldsTypes := known.2;
     metaUpdate_Schema := bigquery.Schema_ meta;
     newFields := ∅ |}.

(** The field definition staged for a new field. *)
Definition stagedField (key : string) (value : goValue) : bigquery.FieldSchema :=
  {| bigquery.Name := key;
     bigquery.Type_ := inferredType key value;
     bigquery.Required := false |}.

(** The fields to stage for the entries of a batch, given the names seen
    so far: one definition per name not seen, at its first occurrence. *)
Fixpoint staged (seen : gset string) (entries : list (string * goValue))
  : bigquery.Schema :=
  match entries with
  | [] => []
  | (key, value) :: entries' =>
      if decide (key ∈ seen) then staged seen entries'
      else stagedField key value :: staged ({[key]} ∪ seen) entries'
  end.

(** [seen] is the set of the names the state knows. *)
Definition Seen (st : syncState) (seen : gset string) : Prop :=
  forall k, index false (knownFields st) k = true <-> k ∈ seen.

(** The names of a schema's fields. *)
Definition fieldNames (schema : bigquery.Schema) : list string :=
  bigquery.Name <$> schema.

(** A remote field type the first switch of [updateSchema] accepts. *)
Definition permitted (field : bigquery.FieldSchema) : Prop :=
  is_Some (knownFieldType (bigquery.Type_ field)).

(** [key] is a field of some row of the batch. *)
Definition batchField (rows : list bigqueryrow) (key : string) : Prop :=
  exists (i : nat) (row : bigqueryrow), rows !! i = Some row /\ is_Some (row !! key).

(** The batch has a field that the schema lacks. *)
Definition NewField (rows : list bigqueryrow) (schema : bigquery.Schema) : Prop :=
  exists key, batchField rows key /\ key ∉ fieldNames schema.

(** The entries of the batch in the order the loops of [updateSchema]
    visit them. *)
Definition entriesOf (rangeOrder : nat -> bigqueryrow -> list (string * goValue))
    (rows : list bigqueryrow) : list (string * goValue) :=
  concat (imap rangeOrder rows).

(** What [updateSchema] returns for the store's answer to [Update]. *)
Definition updateResult (err : option bigquery.error) : option bigquery.error :=
  match err with
  | Some err => Some ("unable to update schema: " +:+ err)
  | None => None
  end.

(** The table handle [sendRows] and [insertRows] work on. *)
Definition tableOf {W} (sender : bigquerySender W) : bigquery.Table W :=
  bigqueryClient sender (Dataset (sender_Config sender))
    (Table (sender_Config sender)).

(** The sender with the flexible-schema flag set. *)
Definition withSchemaFlexible {W} (sender : bigquerySender W) : bigquerySender W :=
  {| sender_Config :=
       {| ProjectID := ProjectID (sender_Config sender);
          Dataset := Dataset (sender_Config sender);
          Table := Table (sender_Config sender);
          SchemaFlexible := true |};
     bigqueryClient := bigqueryClient sender |}.

(** The trace of an insert that fails, a synchronisation with trace [ts],
    the settling wait and the resubmission. *)
Definition retryTrace (rows : list bigqueryrow) (ts : list Event) : list Event :=
  Put rows :: ts
    ++ [Printf (WaitingForSchema (60 * Second)); Sleep (60 * Second);
        Printf RetryingInsert; Put rows].

(** [range] visits every entry of a Go map once, in some order. *)
Definition RangeOrders (rangeOrder : nat -> bigqueryrow -> list (string * goValue)) : Prop :=
  forall i row, rangeOrder i row ≡ₚ map_to_list row.

(** ** The rest of the package *)

(** The attribute value a row entry was stored from: the cases of
    [addKeyValue] read backwards; no case stores a [uint8]. *)
Definition valueOf (x : goValue) : option pcommon.Value :=
  match x with
  | GoBool b => Some (pcommon.NewValueBool b)
  | GoByteSlice bs => Some (pcommon.NewValueBytes bs)
  | GoFloat64 d => Some (pcommon.NewValueDouble d)
  | GoInt64 i => Some (pcommon.NewValueInt i)
  | GoMap m => Some (pcommon.NewValueMap m)
  | GoSlice l => Some (pcommon.NewValueSlice l)
  | GoString s => Some (pcommon.NewValueStr s)
  | GoUint8 _ => None
  end.

(** The field names under which the attributes [attrs] are written. *)
Definition writtenNames (attrs : pcommon.Map) : list string :=
  omap (fun kv : string * pcommon.Value =>
          if recognized (pcommon.Type_ kv.2) then Some (fieldName kv.1) else None)
       attrs.

(** A resource group with the spans of all its scope groups in one group. *)
Definition mergeScopes (rspan : ptrace.ResourceSpans) : ptrace.ResourceSpans :=
  {| ptrace.Resource_Attributes := ptrace.Resource_Attributes rspan;
     ptrace.ScopeSpans_ :=
       [ {| ptrace.Spans := flat_map ptrace.Spans (ptrace.ScopeSpans_ rspan) |} ] |}.

(** The settings [newRowsExporter] hands to the exporter helper, by the
    fields the code sets. *)
Module exporterhelper.
Record QueueBatchConfig := { Enabled : bool }.
Record TimeoutConfig := { Timeout : Z }.
End exporterhelper.

Module configretry.
Record BackOffConfig :=
  { Enabled : bool;
    InitialInterval : Z;
    MaxInterval : Z;
    MaxElapsedTime : Z }.
End configretry.

Definition TunedQueueSettings : exporterhelper.QueueBatchConfig :=
  {| exporterhelper.Enabled := true |}.

Definition TunedRetrySettings : configretry.BackOffConfig :=
  {| configretry.Enabled := true;
     configretry.InitialInterval := 60 * Second;
     configretry.MaxInterval := 60 * Second;
     configretry.MaxElapsedTime := 5 * Minute |}.

Definition TunedTimeoutSettings : exporterhelper.TimeoutConfig :=
  {| exporterhelper.Timeout := 120 * Second |}.

(** factory.go: [createDefaultConfig]. *)
Definition createDefaultConfig : Config :=
  {| ProjectID := "msyvr";
     Dataset := "otelex";
     Table := "spattex";
     SchemaFlexible := false |}.

(** The test of [sendRows] on the result of an insert: an error whose text
    contains "no such field". *)
Definition isUnknownField (err : option bigquery.error) : bool :=
  match err with
  | Some e => Contains e "no such field"
  | None => false
  end.

(** The error of [updateSchema] for a fetched field of a refused type. *)
Definition refusedType (field : bigquery.FieldSchema) : bigquery.error :=
  "BigQuery field type " +:+ bigquery.FieldType_String (bigquery.Type_ field)
    +:+ " incompatible with span attribute value types".

(** What [consumeTraces] prints after [sendRows] returned [err]. *)
Definition errorLine (err : option bigquery.error) : list Event :=
  match err with
  | Some e => [Printf (ErrorPushingTraces e)]
  | None => []
  end.

(** The older files of the package: [buildTraceRows] (its [addKeyValue] has
    the cases of the one above in another order), [updateSchema] (the same
    two switches in another order, another text for a refused field type
    and for a value that does not match its field), [insertRows] and
    [sendRows]. *)
Module Legacy.

Definition spanRow (rattrs : pcommon.Map) (span : ptrace.Span) : bigqueryrow :=
  let row : bigqueryrow :=
    <["type" := GoString "trace"]> {[ "name" := GoString (ptrace.Name span) ]} in
  let row := pcommon.Range rattrs (fun k v row => (addKeyValue k v row, true)) row in
  let row :=
    pcommon.Range (ptrace.Attributes span)
      (fun k v row => (addKeyValue k v row, true)) row in
  row.

Definition buildTraceRows (td : ptrace.Traces) : list bigqueryrow :=
  foldl (fun rows rspan =>
    foldl (fun rows sspan =>
      foldl (fun rows span =>
        rows ++ [spanRow (ptrace.Resource_Attributes rspan) span])
        rows (ptrace.Spans sspan))
      rows (ptrace.ScopeSpans_ rspan))
    [] td.

Fixpoint knownLoop (schema : bigquery.Schema)
    (knownFields : gmap string bool) (knownFieldsTypes : gmap string string)
  : (gmap string bool * gmap string string) + bigquery.error :=
  match schema with
  | [] => inl (knownFields, knownFieldsTypes)
  | field :: schema' =>
      let knownFields := <[bigquery.Name field := true]> knownFields in
      match knownFieldType (bigquery.Type_ field) with
      | Some goType =>
          knownLoop schema' knownFields
            (<[bigquery.Name field := goType]> knownFieldsTypes)
      | None =>
          inr ("bigquery field " +:+ bigquery.Name field
                 +:+ " has type not permitted as OTel span attribute: "
                 +:+ bigquery.FieldType_String (bigquery.Type_ field))
      end
  end.

(** The error of the older [updateSchema] for a fetched field of a refused
    type. *)
Definition refusedType (field : bigquery.FieldSchema) : bigquery.error :=
  "bigquery field " +:+ bigquery.Name field
    +:+ " has type not permitted as OTel span attribute: "
    +:+ bigquery.FieldType_String (bigquery.Type_ field).

(** An event of the older sender: one the newer sender has too, or the
    older wording of the warning for a value that does not match its field
    ("Existing field %v is not of type: %v. Export may fail."). *)
Inductive OldEvent :=
| Shared (e : Event)
| ExistingFieldNotOfType (key valueType : string).

(** The event of the newer sender that stands where an older one stood. *)
Definition newWording (e : OldEvent) : Event :=
  match e with
  | Shared e => e
  | ExistingFieldNotOfType key valueType =>
      Printf (SchemaFieldMismatch key valueType)
  end.

(** Computations of the older sender, with their own traces. *)
Definition OldM (W A : Type) : Type := W -> A * W * list OldEvent.

Definition oldRet {W A} (a : A) : OldM W A := fun w => (a, w, []).

Definition oldBind {W A B} (m : OldM W A) (f : A -> OldM W B) : OldM W B :=
  fun w =>
    let '(a, w1, t1) := m w in
    let '(b, w2, t2) := f a w1 in
    (b, w2, t1 ++ t2).

Notation "'let+' x ':=' m 'in' k" := (oldBind m (fun x => k))
  (at level 10, x pattern, m at level 100, k at level 200).

(** What the two senders do alike. *)
Definition shared {W A} (m : M W A) : OldM W A :=
  fun w => let '(a, w', t) := m w in (a, w', Shared <$> t).

Fixpoint oldRangeFold {W A S} (l : list A) (body : S -> A -> OldM W S) (s : S)
  : OldM W S :=
  match l with
  | [] => oldRet s
  | a :: l' => let+ s' := body s a in oldRangeFold l' body s'
  end.

Section Sender.

Context {W : Type}.
Variable rangeOrder : nat -> bigqueryrow -> list (string * goValue).

Definition fieldBody (st : syncState) (entry : string * goValue)
  : OldM W syncState :=
  let '(key, value) := entry in
  let valueType := TypeOf_String value in
  let+ _ :=
    (if index false (knownFields st) key then
       if negb (String.eqb (index "" (knownFieldsTypes st) key) valueType)
       then fun w => (tt, w, [ExistingFieldNotOfType key valueType])
       else oldRet tt
     else oldRet tt) in
  if negb (index false (knownFields st) key) then
    let+ fieldType := shared (newFieldType key value) in
    let+ _ := shared (fmt_Printf (UpdatingSchemaField key fieldType)) in
    oldRet {| knownFields := <[key := true]> (knownFields st);
              knownFieldsTypes := <[key := valueType]> (knownFieldsTypes st);
              metaUpdate_Schema :=
                metaUpdate_Schema st
                  ++ [ {| bigquery.Name := key;
                          bigquery.Type_ := fieldType;
                          bigquery.Required := false |} ];
              newFields := <[key := true]> (newFields st) |}
  else oldRet st.

Definition rowsLoop (views : list (list (string * goValue))) (st : syncState)
  : OldM W syncState :=
  oldRangeFold views (fun st view => oldRangeFold view fieldBody st) st.

Definition updateSchema (table : bigquery.Table W) (rows : list bigqueryrow)
  : OldM W (option bigquery.error) :=
  let+ r := shared (Table_Metadata table) in
  match r with
  | inr err => oldRet (Some ("table metadata: " +:+ err))
  | inl meta =>
      match knownLoop (bigquery.Schema_ meta) ∅ ∅ with
      | inr err => oldRet (Some err)
      | inl (knownFields0, knownFieldsTypes0) =>
          let+ st :=
            rowsLoop (imap rangeOrder rows)
              {| knownFields := knownFields0;
                 knownFieldsTypes := knownFieldsTypes0;
                 metaUpdate_Schema := bigquery.Schema_ meta;
                 newFields := ∅ |} in
          if Nat.eqb (size (newFields st)) 0 then oldRet None
          else
            let+ _ :=
              shared (fmt_Printf (UpdatingSchemaCount (size (newFields st)))) in
            let+ err :=
              shared (Table_Update table
                        {| bigquery.Schema_update := metaUpdate_Schema st |}
                        (bigquery.ETag meta)) in
            match err with
            | Some err => oldRet (Some ("unable to update schema: " +:+ err))
            | None => oldRet None
            end
      end
  end.

(** [insertRows] of the older file, with its own [updateSchema]. *)
Definition insertRows (sender : bigquerySender W) (rows : list bigqueryrow)
  : OldM W (option bigquery.error) :=
  let table :=
    bigqueryClient sender (Dataset (sender_Config sender))
      (Table (sender_Config sender)) in
  let+ err := shared (Inserter_Put table rows) in
  match err with
  | Some e =>
      if Contains e "no such field" then
        let+ err := updateSchema table rows in
        match err with
        | Some err => oldRet (Some err)
        | None =>
            let wait := 1 * Minute in
            let+ _ := shared (fmt_Printf (WaitingForSchema wait)) in
            let+ _ := shared (time_Sleep wait) in
            let+ _ := shared (fmt_Printf RetryingInsert) in
            shared (Inserter_Put table rows)
        end
      else oldRet err
  | None => oldRet err
  end.

(** [sendRows] of the older file: build the rows, insert them, print a
    failure. *)
Definition sendRows (sender : bigquerySender W) (td : ptrace.Traces)
  : OldM W (option bigquery.error) :=
  let rows := buildTraceRows td in
  let+ err := insertRows sender rows in
  match err with
  | Some e => let+ _ := shared (fmt_Printf (ErrorPushingTraces e)) in oldRet err
  | None => oldRet err
  end.

End Sender.

End Legacy.

(** ** Sample inputs *)

Module Samples.

(** The batch of [createTestTraces] in rows_builder_test.go; 3.14 and 3.24
    are 0x40091EB851EB851F and 0x4009EB851EB851EC. *)
Definition testResource : pcommon.Map :=
  [ ("service.name", pcommon.NewValueStr "service1");
    ("resource.id", pcommon.NewValueInt 1001) ].
Definition testSpan1 : ptrace.Span :=
  {| ptrace.Name := "span1";
     ptrace.Attributes :=
       [ ("str_key", pcommon.NewValueStr "value1");
         ("int_key", pcommon.NewValueInt 41);
         ("double_key", pcommon.NewValueDouble 4614253070214989087) ] |}.
Definition testSpan2 : ptrace.Span :=
  {| ptrace.Name := "span2";
     ptrace.Attributes :=
       [ ("str_key", pcommon.NewValueStr "value2");
         ("int_key", pcommon.NewValueInt 42);
         ("double_key", pcommon.NewValueDouble 4614478250196357612) ] |}.
Definition testTraces : ptrace.Traces :=
  [ {| ptrace.Resource_Attributes := testResource;
       ptrace.ScopeSpans_ := [ {| ptrace.Spans := [ testSpan1; testSpan2 ] |} ] |} ].

(** A span with an attribute whose key is the record-name field. *)
Definition nameClashTraces : ptrace.Traces :=
  [ {| ptrace.Resource_Attributes := [];
       ptrace.ScopeSpans_ :=
         [ {| ptrace.Spans :=
                [ {| ptrace.Name := "span1";
                     ptrace.Attributes :=
                       [ ("name", pcommon.NewValueStr "other") ] |} ] |} ] |} ].

(** A resource attribute and a span attribute that meet at "service_name". *)
Definition resourceAttrs : pcommon.Map :=
  [ ("service.name", pcommon.NewValueStr "from-resource") ].
Definition leafSpan : ptrace.Span :=
  {| ptrace.Name := "span1";
     ptrace.Attributes := [ ("service_name", pcommon.NewValueStr "from-leaf") ] |}.

(** The same, with an unset value at the leaf level. *)
Definition emptyLeafSpan : ptrace.Span :=
  {| ptrace.Name := "span1";
     ptrace.Attributes := [ ("service_name", pcommon.NewValueEmpty) ] |}.

(** Two span attributes whose distinct keys meet at "service_name". *)
Definition twoLeafSpan : ptrace.Span :=
  {| ptrace.Name := "span1";
     ptrace.Attributes :=
       [ ("service.name", pcommon.NewValueStr "first-leaf");
         ("service_name", pcommon.NewValueStr "second-leaf") ] |}.

(** A store that counts the inserts it has seen: the [n]-th insert gets
    the [n]-th answer of [answers] and succeeds beyond them; the schema is
    [meta]; every alteration is accepted. *)
Definition store (meta : bigquery.TableMetadata)
    (answers : list (option bigquery.error)) : bigquery.Table nat :=
  {| bigquery.Put_ := fun _ n => (default None (answers !! n), S n);
     bigquery.Metadata_ := fun n => (inl meta, n);
     bigquery.Update_ := fun _ _ n => (None, n) |}.

Definition sender (flexible : bool) (table : bigquery.Table nat)
  : bigquerySender nat :=
  {| sender_Config :=
       {| ProjectID := "msyvr"; Dataset := "otelex"; Table := "spattex";
          SchemaFlexible := flexible |};
     bigqueryClient := fun _ _ => table |}.

(** One order of visiting the entries of a row. *)
Definition mapOrder (i : nat) (row : bigqueryrow) : list (string * goValue) :=
  map_to_list row.

Definition unknownField : bigquery.error := "no such field: http_status.".

Definition field (name : string) (type : bigquery.FieldType)
  : bigquery.FieldSchema :=
  {| bigquery.Name := name; bigquery.Type_ := type; bigquery.Required := false |}.

(** Remote tables: with the record name only; with every field of
    [statusRows]; with a column of type INTEGER; with a record name of
    type BOOLEAN. *)
Definition metaNameOnly : bigquery.TableMetadata :=
  {| bigquery.Schema_ := [ field "name" bigquery.StringFieldType ];
     bigquery.ETag := "etag-1" |}.
Definition metaComplete : bigquery.TableMetadata :=
  {| bigquery.Schema_ :=
       [ field "name" bigquery.StringFieldType;
         field "http_status" bigquery.NumericFieldType ];
     bigquery.ETag := "etag-2" |}.
Definition metaInteger : bigquery.TableMetadata :=
  {| bigquery.Schema_ :=
       [ field "name" bigquery.StringFieldType;
         field "id" bigquery.IntegerFieldType ];
     bigquery.ETag := "etag-3" |}.
Definition metaBooleanName : bigquery.TableMetadata :=
  {| bigquery.Schema_ := [ field "name" bigquery.BooleanFieldType ];
     bigquery.ETag := "etag-4" |}.

(** Batches of one row: a span with an integer attribute, and a span with
    a bytes attribute. *)
Definition statusRows : list bigqueryrow :=
  buildRows
    [ {| ptrace.Resource_Attributes := [];
         ptrace.ScopeSpans_ :=
           [ {| ptrace.Spans :=
                  [ {| ptrace.Name := "span1";
                       ptrace.Attributes :=
                         [ ("http.status", pcommon.NewValueInt 200) ] |} ] |} ] |} ].
Definition bytesRows : list bigqueryrow :=
  buildRows
    [ {| ptrace.Resource_Attributes := [];
         ptrace.ScopeSpans_ :=
           [ {| ptrace.Spans :=
                  [ {| ptrace.Name := "span1";
                       ptrace.Attributes :=
                         [ ("payload", pcommon.NewValueBytes [x00; xff]) ] |} ] |} ] |} ].

(** A store whose schema fetch fails. *)
Definition brokenStore (answers : list (option bigquery.error))
  : bigquery.Table nat :=
  {| bigquery.Put_ := fun _ n => (default None (answers !! n), S n);
     bigquery.Metadata_ := fun n => (inr "notFound: table spattex", n);
     bigquery.Update_ := fun _ _ n => (None, n) |}.

(** A store that refuses every alteration. *)
Definition refusingStore (meta : bigquery.TableMetadata) : bigquery.Table nat :=
  {| bigquery.Put_ := fun _ n => (None, S n);
     bigquery.Metadata_ := fun n => (inl meta, n);
     bigquery.Update_ := fun _ _ n => (Some "precondition failed", n) |}.

(** Two rows with the field http_status, first as a string, then as an
    integer. *)
Definition mixedRows : list bigqueryrow :=
  [ {[ "name" := GoString "span1" ]};
    <["http_status" := GoString "200"]> {[ "name" := GoString "span2" ]};
    <["http_status" := GoInt64 200]> {[ "name" := GoString "span3" ]} ].

(** A remote table whose record name is BOOLEAN and that has a column of
    type INTEGER. *)
Definition metaBooleanInteger : bigquery.TableMetadata :=
  {| bigquery.Schema_ :=
       [ field "name" bigquery.BooleanFieldType;
         field "id" bigquery.IntegerFieldType ];
     bigquery.ETag := "etag-5" |}.

(** A row with the bytes field payload. *)
Definition bytesRow : bigqueryrow :=
  <["payload" := GoByteSlice [x00; xff]]> {[ "name" := GoString "span1" ]}.

(** Two rows with the field payload, first as a string, then as bytes. *)
Definition mixedBytesRows : list bigqueryrow :=
  [ <["payload" := GoString "text"]> {[ "name" := GoString "span1" ]};
    <["payload" := GoByteSlice [x00; xff]]> {[ "name" := GoString "span2" ]} ].

(** A resource group with two scope groups. *)
Definition twoScopes : ptrace.ResourceSpans :=
  {| ptrace.Resource_Attributes := testResource;
     ptrace.ScopeSpans_ :=
       [ {| ptrace.Spans := [ testSpan1 ] |}; {| ptrace.Spans := [ testSpan2 ] |} ] |}.

End Samples.

(** ** The row builder *)

Lemma Replace_idempotent s old new :
  new <> old -> Replace (Replace s old new) old new = Replace s old new.
Proof.
  intros Hne. induction s as [|c s IH]; simpl; [reflexivity|].
  f_equal; [|exact IH].
  destruct (Ascii.eqb c old) eqn:Hc.
  - destruct (Ascii.eqb new old) eqn:Hn; [|reflexivity].
    apply Ascii.eqb_eq in Hn. contradiction.
  - rewrite Hc. reflexivity.
Qed.

(** C9. Sanitising a field name (every '.' becomes '_') is idempotent, and
    "service.name" sanitises to "service_name". *)
Theorem fieldName_idempotent (k : string) :
  fieldName (fieldName k) = fieldName k
  /\ fieldName "service.name" = "service_name".
Proof.
  split; [|reflexivity].
  unfold fieldName. apply Replace_idempotent. discriminate.
Qed.

Lemma Range_all (m : pcommon.Map) (row : bigqueryrow) :
  pcommon.Range m (fun k v row => (addKeyValue k v row, true)) row
  = foldl (fun row kv => addKeyValue kv.1 kv.2 row) row m.
Proof.
  revert row. induction m as [|[k v] m IH]; intros row; simpl; [reflexivity|].
  apply IH.
Qed.

Lemma addKeyValue_unrecognized k v (row : bigqueryrow) :
  recognized (pcommon.Type_ v) = false -> addKeyValue k v row = row.
Proof. destruct v; simpl; intros H; try discriminate H. reflexivity. Qed.

Lemma addKeyValue_other k v (row : bigqueryrow) f :
  fieldName k <> f -> addKeyValue k v row !! f = row !! f.
Proof.
  intros Hne. unfold addKeyValue.
  destruct (pcommon.Type_ v); try reflexivity; by rewrite lookup_insert_ne.
Qed.

Lemma addKeyValue_written k v (row : bigqueryrow) :
  recognized (pcommon.Type_ v) = true ->
  addKeyValue k v row !! fieldName k = addKeyValue k v ∅ !! fieldName k.
Proof.
  unfold addKeyValue.
  destruct (pcommon.Type_ v); simpl; intros H; try discriminate H;
    by rewrite !lookup_insert_eq.
Qed.

Lemma addKeyValue_written_is_Some k v :
  recognized (pcommon.Type_ v) = true ->
  is_Some (addKeyValue k v ∅ !! fieldName k).
Proof.
  unfold addKeyValue.
  destruct (pcommon.Type_ v); simpl; intros H; try discriminate H;
    rewrite lookup_insert_eq; eauto.
Qed.

Lemma foldl_addKeyValue_untouched f (attrs : pcommon.Map) (row : bigqueryrow) :
  writesNothingAt f attrs ->
  foldl (fun row kv => addKeyValue kv.1 kv.2 row) row attrs !! f = row !! f.
Proof.
  revert row. induction attrs as [|[k v] attrs IH]; intros row Hw; simpl; [reflexivity|].
  rewrite IH.
  - destruct (decide (fieldName k = f)) as [Heq|Hne].
    + rewrite addKeyValue_unrecognized; [reflexivity|].
      apply (Hw k v); [left|exact Heq].
    + by apply addKeyValue_other.
  - intros k' v' Hin. apply Hw. by right.
Qed.

Lemma writesNothingAt_app f (a b : pcommon.Map) :
  writesNothingAt f (a ++ b) <-> writesNothingAt f a /\ writesNothingAt f b.
Proof.
  unfold writesNothingAt. split.
  - intros H. split; intros k v Hin; apply H; apply elem_of_app; auto.
  - intros [Ha Hb] k v Hin. apply elem_of_app in Hin as [Hin|Hin]; eauto.
Qed.

Lemma spanRow_name rattrs span :
  writesNothingAt "name" (rattrs ++ ptrace.Attributes span) ->
  spanRow rattrs span !! "name" = Some (GoString (ptrace.Name span)).
Proof.
  intros [Hr Hs]%writesNothingAt_app. unfold spanRow.
  rewrite !Range_all, !foldl_addKeyValue_untouched by assumption.
  apply lookup_singleton_eq.
Qed.

Lemma spans_loop rattrs (spans : list ptrace.Span) (rows : list bigqueryrow) :
  foldl (fun rows span => rows ++ [spanRow rattrs span]) rows spans
  = rows ++ map (fun span => spanRow rattrs span) spans.
Proof.
  revert rows. induction spans as [|span spans IH]; intros rows; simpl.
  - by rewrite app_nil_r.
  - rewrite IH, <- app_assoc. reflexivity.
Qed.

Lemma scopes_loop rattrs (sspans : list ptrace.ScopeSpans) (rows : list bigqueryrow) :
  foldl (fun rows sspan =>
           foldl (fun rows span => rows ++ [spanRow rattrs span])
                 rows (ptrace.Spans sspan)) rows sspans
  = rows ++ flat_map (fun sspan =>
                        map (fun span => spanRow rattrs span) (ptrace.Spans sspan))
                     sspans.
Proof.
  revert rows. induction sspans as [|sspan sspans IH]; intros rows; simpl.
  - by rewrite app_nil_r.
  - rewrite IH, spans_loop, <- app_assoc. reflexivity.
Qed.

Lemma flat_map_map {A B C} (g : B -> C) (f : A -> list B) (l : list A) :
  map g (flat_map f l) = flat_map (fun a => map g (f a)) l.
Proof.
  induction l as [|a l IH]; simpl; [reflexivity|].
  by rewrite map_app, IH.
Qed.

(** The nested loops produce the rows of the leaves, in traversal order. *)
Lemma buildRows_leaves (td : ptrace.Traces) :
  buildRows td = map (fun leaf => spanRow leaf.1 leaf.2) (leaves td).
Proof.
  unfold buildRows, leaves.
  enough (Hgen : forall rows : list bigqueryrow,
    foldl (fun rows rspan =>
      foldl (fun rows sspan =>
        foldl (fun rows span =>
          rows ++ [spanRow (ptrace.Resource_Attributes rspan) span])
          rows (ptrace.Spans sspan))
        rows (ptrace.ScopeSpans_ rspan)) rows td
    = rows ++ map (fun leaf => spanRow leaf.1 leaf.2)
        (flat_map (fun rspan =>
           flat_map (fun sspan =>
             map (fun span => (ptrace.Resource_Attributes rspan, span))
                 (ptrace.Spans sspan))
             (ptrace.ScopeSpans_ rspan)) td)) by apply (Hgen []).
  induction td as [|rspan td IH]; intros rows; simpl.
  - by rewrite app_nil_r.
  - rewrite IH, scopes_loop, map_app, <- app_assoc. do 2 f_equal.
    rewrite flat_map_map. apply flat_map_ext. intros sspan.
    by rewrite map_map.
Qed.

(** C7 (amended). The row builder produces exactly one row per leaf record,
    in traversal order; the row's record-name field is the leaf's name
    whenever no attribute of a recognized kind, of the leaf or of its resource
    group, is written under the name "name"; a batch without leaf records
    yields no row. *)
Theorem buildRows_one_row_per_leaf (td : ptrace.Traces) :
  Forall2 (fun leaf row =>
             row = spanRow leaf.1 leaf.2
             /\ (writesNothingAt "name" (leaf.1 ++ ptrace.Attributes leaf.2) ->
                 row !! "name" = Some (GoString (ptrace.Name leaf.2))))
          (leaves td) (buildRows td)
  /\ (leaves td = [] -> buildRows td = []).
Proof.
  rewrite buildRows_leaves. split.
  - induction (leaves td) as [|[rattrs span] l IH]; simpl; constructor.
    + split; [reflexivity|]. apply spanRow_name.
    + exact IH.
  - intros ->. reflexivity.
Qed.

Lemma buildRows_one_row_per_leaf_witness :
  exists row : bigqueryrow,
    buildRows Samples.testTraces !! 1%nat = Some row
    /\ row !! "name" = Some (GoString "span2").
Proof.
  destruct (Forall2_lookup_l _ _ _ 1%nat
              (Samples.testResource, Samples.testSpan2)
              (proj1 (buildRows_one_row_per_leaf Samples.testTraces)) eq_refl)
    as (row & Hrow & _ & Hname).
  exists row. split; [exact Hrow|].
  apply Hname. intros k v Hin Hk. simpl in Hin.
  repeat (apply elem_of_cons in Hin as [Heq|Hin];
          [injection Heq as -> ->; vm_compute in Hk; discriminate Hk|]).
  by apply elem_of_nil in Hin.
Defined.

(** C7, as stated, fails: an attribute named "name" replaces the leaf's name
    in the record-name field. *)
Lemma buildRows_name_overwritten :
  (ptrace.Name <$> (snd <$> leaves Samples.nameClashTraces) = ["span1"])
  /\ (fun row : bigqueryrow => row !! "name") <$> buildRows Samples.nameClashTraces
     = [Some (GoString "other")].
Proof. split; vm_compute; reflexivity. Qed.

(** C4 (amended). For an attribute value whose type tag is none of the seven
    recognized kinds (the empty value), [addKeyValue] returns normally and
    leaves the row exactly as it was: it adds no field, and what the row
    held under the sanitised name before, if anything, it still holds. *)
Theorem addKeyValue_drops_unrecognized k v (row : bigqueryrow) :
  recognized (pcommon.Type_ v) = false ->
  addKeyValue k v row = row
  /\ dom (addKeyValue k v row) = dom row
  /\ addKeyValue k v row !! fieldName k = row !! fieldName k.
Proof.
  intros Hv.
  assert (Hrow : addKeyValue k v row = row).
  { unfold addKeyValue. destruct v; simpl in Hv; try discriminate Hv.
    reflexivity. }
  by rewrite Hrow.
Qed.

Lemma addKeyValue_drops_unrecognized_witness :
  recognized (pcommon.Type_ pcommon.NewValueEmpty) = false
  /\ addKeyValue "http.status" pcommon.NewValueEmpty
       {[ "name" := GoString "span1" ]}
     = {[ "name" := GoString "span1" ]}.
Proof.
  split; [reflexivity|].
  apply (addKeyValue_drops_unrecognized "http.status" pcommon.NewValueEmpty).
  reflexivity.
Defined.

(** C4, as stated, fails: on the empty value [addKeyValue] does not fail,
    and the field is absent from the row it returns. *)
Lemma addKeyValue_empty_value_silent :
  pcommon.Type_ pcommon.NewValueEmpty = pcommon.ValueTypeEmpty
  /\ addKeyValue "http.status" pcommon.NewValueEmpty ∅ = ∅
  /\ addKeyValue "http.status" pcommon.NewValueEmpty ∅ !! fieldName "http.status"
     = None.
Proof. repeat split. Qed.

(** C8 (amended). The row of a leaf record holds, under a field name, the
    value of the last leaf-level attribute of a recognized kind that
    sanitises to that name, whatever the resource-level attributes wrote
    there. *)
Theorem leaf_attribute_overrides_resource rattrs span pre k v post :
  ptrace.Attributes span = pre ++ (k, v) :: post ->
  recognized (pcommon.Type_ v) = true ->
  writesNothingAt (fieldName k) post ->
  spanRow rattrs span !! fieldName k = addKeyValue k v ∅ !! fieldName k
  /\ is_Some (spanRow rattrs span !! fieldName k).
Proof.
  intros Hattrs Hrec Hpost.
  assert (Heq : spanRow rattrs span !! fieldName k
                = addKeyValue k v ∅ !! fieldName k).
  { unfold spanRow. rewrite !Range_all, Hattrs, foldl_app. simpl.
    rewrite foldl_addKeyValue_untouched by exact Hpost.
    by apply addKeyValue_written. }
  split; [exact Heq|].
  rewrite Heq. by apply addKeyValue_written_is_Some.
Qed.

Lemma leaf_attribute_overrides_resource_witness :
  spanRow Samples.resourceAttrs Samples.leafSpan !! "service_name"
  = Some (GoString "from-leaf").
Proof.
  refine (eq_trans
    (proj1 (leaf_attribute_overrides_resource Samples.resourceAttrs
              Samples.leafSpan [] "service_name"
              (pcommon.NewValueStr "from-leaf") [] eq_refl eq_refl _)) _).
  - intros k v Hin. by apply elem_of_nil in Hin.
  - vm_compute. reflexivity.
Defined.

(** C8, as stated, fails: a leaf-level attribute with an unset value writes
    nothing, and the row keeps the resource-level value; and of two
    leaf-level attributes that sanitise to one name, the row holds the
    second one's value, not the first one's. *)
Lemma unset_leaf_attribute_keeps_resource_value :
  fieldName "service.name" = fieldName "service_name"
  /\ spanRow Samples.resourceAttrs Samples.emptyLeafSpan !! "service_name"
     = Some (GoString "from-resource")
  /\ spanRow Samples.resourceAttrs Samples.twoLeafSpan !! "service_name"
     = Some (GoString "second-leaf").
Proof. repeat split; vm_compute; reflexivity. Qed.

(** ** The schema synchroniser *)

Lemma linesOf_Printf (lines : list Line) : linesOf (Printf <$> lines) = lines.
Proof. induction lines as [|l lines IH]; simpl; [reflexivity|]. by f_equal. Qed.

Lemma updatesOf_app t1 t2 : updatesOf (t1 ++ t2) = updatesOf t1 ++ updatesOf t2.
Proof. apply omap_app. Qed.

Lemma putsOf_app t1 t2 : putsOf (t1 ++ t2) = putsOf t1 ++ putsOf t2.
Proof. apply omap_app. Qed.

Lemma sleepsOf_app t1 t2 : sleepsOf (t1 ++ t2) = sleepsOf t1 ++ sleepsOf t2.
Proof. apply omap_app. Qed.

Lemma fetchesOf_app t1 t2 : fetchesOf (t1 ++ t2) = (fetchesOf t1 + fetchesOf t2)%nat.
Proof. unfold fetchesOf. by rewrite omap_app, length_app. Qed.

Lemma updatesOf_Printf (lines : list Line) : updatesOf (Printf <$> lines) = [].
Proof. induction lines as [|l lines IH]; simpl; [reflexivity|]. exact IH. Qed.

Lemma putsOf_Printf (lines : list Line) : putsOf (Printf <$> lines) = [].
Proof. induction lines as [|l lines IH]; simpl; [reflexivity|]. exact IH. Qed.

Lemma sleepsOf_Printf (lines : list Line) : sleepsOf (Printf <$> lines) = [].
Proof. induction lines as [|l lines IH]; simpl; [reflexivity|]. exact IH. Qed.

Lemma fetchesOf_Printf (lines : list Line) : fetchesOf (Printf <$> lines) = 0%nat.
Proof. induction lines as [|l lines IH]; simpl; [reflexivity|]. exact IH. Qed.

(** The loops of [updateSchema] only print: in any world they compute
    what they compute in the unit world, and leave the world alone. *)
Lemma newFieldType_run {W} key value (w : W) :
  exists lines,
    newFieldType key value w = (inferredType key value, w, Printf <$> lines).
Proof.
  unfold inferredType, newFieldType.
  destruct (String.eqb key "ts"); [by exists []|].
  destruct (typeSwitch value); [by exists []|].
  by exists [UnsupportedType key (TypeOf_String value)].
Qed.

Lemma fieldBody_run {W} st entry (w : W) :
  fieldBody st entry w = (fieldStep st entry, w, Printf <$> fieldLines st entry).
Proof.
  unfold fieldStep, fieldLines, fieldBody. destruct entry as [key value].
  unfold newFieldType, bind, ret, fmt_Printf, emit.
  destruct (index false (knownFields st) key); simpl.
  - destruct (negb _); reflexivity.
  - destruct (String.eqb key "ts"); [reflexivity|].
    destruct (typeSwitch value); reflexivity.
Qed.

Lemma loopState_nil st : loopState [] st = st.
Proof. reflexivity. Qed.

Lemma loopLines_nil st : loopLines [] st = [].
Proof. reflexivity. Qed.

Lemma loopState_cons entry entries st :
  loopState (entry :: entries) st = loopState entries (fieldStep st entry).
Proof.
  unfold loopState. simpl. unfold bind. rewrite fieldBody_run.
  by destruct (rangeFold entries fieldBody (fieldStep st entry) ()) as [[b w2] t2].
Qed.

Lemma loopLines_cons entry entries st :
  loopLines (entry :: entries) st
  = fieldLines st entry ++ loopLines entries (fieldStep st entry).
Proof.
  unfold loopLines. simpl. unfold bind. rewrite fieldBody_run.
  destruct (rangeFold entries fieldBody (fieldStep st entry) ()) as [[b w2] t2].
  simpl. unfold linesOf. rewrite omap_app. fold linesOf.
  by rewrite linesOf_Printf.
Qed.

Lemma loop_run {W} entries st (w : W) :
  rangeFold entries fieldBody st w
  = (loopState entries st, w, Printf <$> loopLines entries st).
Proof.
  revert st. induction entries as [|entry entries IH]; intros st.
  - reflexivity.
  - rewrite loopState_cons, loopLines_cons. simpl. unfold bind.
    rewrite fieldBody_run, IH, fmap_app. reflexivity.
Qed.

Lemma loopState_app es1 es2 st :
  loopState (es1 ++ es2) st = loopState es2 (loopState es1 st).
Proof.
  revert st. induction es1 as [|e es1 IH]; intros st; [reflexivity|].
  simpl. by rewrite !loopState_cons, IH.
Qed.

Lemma loopLines_app es1 es2 st :
  loopLines (es1 ++ es2) st
  = loopLines es1 st ++ loopLines es2 (loopState es1 st).
Proof.
  revert st. induction es1 as [|e es1 IH]; intros st; [reflexivity|].
  simpl. by rewrite !loopLines_cons, loopState_cons, IH, app_assoc.
Qed.

Lemma rowsLoop_run {W} (views : list (list (string * goValue))) st (w : W) :
  rowsLoop views st w
  = (loopState (concat views) st, w, Printf <$> loopLines (concat views) st).
Proof.
  unfold rowsLoop.
  revert st. induction views as [|view views IH]; intros st; [reflexivity|].
  simpl. unfold bind. rewrite loop_run, IH.
  by rewrite loopState_app, loopLines_app, fmap_app.
Qed.

(** One step of the loop: a known field leaves the state alone, a new one
    is staged and becomes known. *)
Lemma fieldStep_known st key value :
  index false (knownFields st) key = true -> fieldStep st (key, value) = st.
Proof.
  intros Hk. unfold fieldStep, fieldBody, bind, ret. rewrite Hk. simpl.
  by destruct (negb _).
Qed.

Lemma fieldStep_new st key value :
  index false (knownFields st) key = false ->
  fieldStep st (key, value)
  = {| knownFields := <[key := true]> (knownFields st);
       knownFieldsTypes := <[key := TypeOf_String value]> (knownFieldsTypes st);
       metaUpdate_Schema := metaUpdate_Schema st ++ [stagedField key value];
       newFields := <[key := true]> (newFields st) |}.
Proof.
  intros Hk. unfold fieldStep, fieldBody, stagedField, inferredType, bind, ret.
  rewrite Hk. simpl. unfold newFieldType, bind, ret, fmt_Printf, emit.
  destruct (String.eqb key "ts"); [reflexivity|].
  destruct (typeSwitch value); reflexivity.
Qed.

Lemma fieldLines_mismatch st key value :
  index false (knownFields st) key = true ->
  index "" (knownFieldsTypes st) key <> TypeOf_String value ->
  fieldLines st (key, value) = [SchemaFieldMismatch key (TypeOf_String value)].
Proof.
  intros Hk Hne. unfold fieldLines, fieldBody, bind, ret. rewrite Hk. simpl.
  destruct (String.eqb _ _) eqn:Heq; [|reflexivity].
  by apply String.eqb_eq in Heq.
Qed.

Lemma fieldLines_new st key value :
  index false (knownFields st) key = false ->
  typeSwitch value = None -> key <> "ts" ->
  fieldLines st (key, value)
  = [UnsupportedType key (TypeOf_String value);
     UpdatingSchemaField key bigquery.ZeroFieldType].
Proof.
  intros Hk Hsw Hts. unfold fieldLines, fieldBody, bind, ret. rewrite Hk. simpl.
  unfold newFieldType, bind, ret, fmt_Printf, emit. rewrite Hsw.
  apply String.eqb_neq in Hts. by rewrite Hts.
Qed.

Lemma index_insert_eq {V} (zero v : V) (m : gmap string V) k :
  index zero (<[k := v]> m) k = v.
Proof. unfold index. by rewrite lookup_insert_eq. Qed.

Lemma index_insert_ne {V} (zero v : V) (m : gmap string V) k k' :
  k <> k' -> index zero (<[k := v]> m) k' = index zero m k'.
Proof. intros Hne. unfold index. by rewrite lookup_insert_ne. Qed.

Lemma Seen_step st seen key value :
  Seen st seen -> key ∉ seen ->
  Seen (fieldStep st (key, value)) ({[key]} ∪ seen).
Proof.
  intros HS Hnew k.
  assert (Hk : index false (knownFields st) key = false).
  { destruct (index false (knownFields st) key) eqn:E; [|reflexivity].
    by apply HS in E. }
  rewrite fieldStep_new by exact Hk. simpl.
  destruct (decide (key = k)) as [->|Hne].
  - rewrite index_insert_eq. set_solver.
  - rewrite index_insert_ne by exact Hne. split.
    + intros H%HS. set_solver.
    + intros [H|H]%elem_of_union; [set_solver|by apply HS].
Qed.

(** The loop appends the staged fields to the schema of the request and
    records their names in [newFields]. *)
Lemma loopState_staged entries st seen :
  Seen st seen ->
  metaUpdate_Schema (loopState entries st)
  = metaUpdate_Schema st ++ staged seen entries
  /\ dom (newFields (loopState entries st))
     = dom (newFields st) ∪ list_to_set (fieldNames (staged seen entries)).
Proof.
  revert st seen. induction entries as [|[key value] entries IH]; intros st seen HS.
  - rewrite loopState_nil. simpl. rewrite app_nil_r. split; [reflexivity|set_solver].
  - rewrite loopState_cons. simpl. destruct (decide (key ∈ seen)) as [Hin|Hnin].
    + rewrite fieldStep_known by (by apply HS). by apply IH.
    + destruct (IH _ _ (Seen_step st seen key value HS Hnin)) as [Hs Hd].
      rewrite Hs, Hd.
      assert (Hk : index false (knownFields st) key = false).
      { destruct (index false (knownFields st) key) eqn:E; [|reflexivity].
        by apply HS in E. }
      rewrite fieldStep_new by exact Hk. simpl.
      rewrite <- app_assoc. split; [reflexivity|].
      rewrite dom_insert_L. set_solver.
Qed.

(** What is staged: nothing when every name is seen; otherwise every unseen
    name of the batch, once, with the type inferred at its first entry. *)
Lemma staged_names seen entries k :
  (k ∈ fieldNames (staged seen entries)) <-> ((k ∉ seen) /\ (k ∈ (entries.*1))).
Proof.
  revert seen. induction entries as [|[key value] entries IH]; intros seen; simpl.
  - unfold fieldNames. simpl. set_solver.
  - destruct (decide (key ∈ seen)) as [Hin|Hnin].
    + rewrite IH. set_solver.
    + unfold fieldNames in *. simpl. rewrite elem_of_cons, IH.
      destruct (decide (k = key)) as [->|Hne]; set_solver.
Qed.

Lemma staged_nil_iff seen entries :
  staged seen entries = [] <-> (forall k, k ∈ (entries.*1) -> k ∈ seen).
Proof.
  split.
  - intros Hnil k Hk. destruct (decide (k ∈ seen)) as [|Hnin]; [done|].
    assert (Hin : k ∈ fieldNames (staged seen entries)) by (by apply staged_names).
    rewrite Hnil in Hin. by apply elem_of_nil in Hin.
  - intros Hall. destruct (staged seen entries) as [|field l] eqn:E; [reflexivity|].
    assert (Hin : bigquery.Name field ∈ fieldNames (staged seen entries)).
    { rewrite E. unfold fieldNames. simpl. left. }
    apply staged_names in Hin as [Hnin Hin]. by apply Hall in Hin.
Qed.

Lemma staged_NoDup seen entries : NoDup (fieldNames (staged seen entries)).
Proof.
  revert seen. induction entries as [|[key value] entries IH]; intros seen; simpl.
  - constructor.
  - destruct (decide (key ∈ seen)); [apply IH|].
    unfold fieldNames in *. simpl. constructor; [|apply IH].
    intros [Hnin _]%staged_names. set_solver.
Qed.

Lemma staged_first seen pre key value post :
  key ∉ seen -> key ∉ (pre.*1) ->
  stagedField key value ∈ staged seen (pre ++ (key, value) :: post).
Proof.
  revert seen. induction pre as [|[k v] pre IH]; intros seen Hseen Hpre; simpl.
  - rewrite decide_False by exact Hseen. left.
  - simpl in Hpre. apply not_elem_of_cons in Hpre as [Hne Hpre].
    destruct (decide (k ∈ seen)).
    + by apply IH.
    + right. apply IH; [set_solver|exact Hpre].
Qed.

Lemma staged_new_only seen entries field :
  field ∈ staged seen entries ->
  exists value, (bigquery.Name field, value) ∈ entries
                /\ field = stagedField (bigquery.Name field) value.
Proof.
  revert seen. induction entries as [|[k v] entries IH]; intros seen; simpl.
  - intros H. by apply elem_of_nil in H.
  - destruct (decide (k ∈ seen)).
    + intros (value & Hin & Heq)%IH. exists value. split; [by right|exact Heq].
    + intros [->|Hin]%elem_of_cons.
      * exists v. split; [left|reflexivity].
      * apply IH in Hin as (value & Hin & Heq). exists value.
        split; [by right|exact Heq].
Qed.

(** The first loop: it accepts a schema of permitted field types and then
    knows exactly the names of the schema. *)
Lemma knownLoop_permitted schema kf kt :
  Forall permitted schema ->
  exists known,
    knownLoop schema kf kt = inl known
    /\ (forall k, index false known.1 k = true
                  <-> index false kf k = true \/ k ∈ fieldNames schema)
    /\ (forall k, k ∉ fieldNames schema -> known.2 !! k = kt !! k).
Proof.
  intros Hall. revert kf kt.
  induction Hall as [|field schema [goType Hty] _ IH]; intros kf kt; simpl.
  - exists (kf, kt). split; [reflexivity|]. unfold fieldNames. simpl.
    split; [|done]. intros k. split; [by left|]. intros [H|H]; [done|].
    by apply elem_of_nil in H.
  - rewrite Hty.
    destruct (IH (<[bigquery.Name field := true]> kf)
                 (<[bigquery.Name field := goType]> kt))
      as (known & Hrun & Hknown & Htypes).
    exists known. split; [exact Hrun|]. unfold fieldNames in *. simpl. split.
    + intros k. rewrite Hknown, elem_of_cons.
      destruct (decide (bigquery.Name field = k)) as [->|Hne].
      * rewrite index_insert_eq. tauto.
      * rewrite index_insert_ne by exact Hne. split; [tauto|].
        intros [H|[H|H]]; [tauto|congruence|tauto].
    + intros k [Hne Hnin]%not_elem_of_cons. rewrite Htypes by exact Hnin.
      by apply lookup_insert_ne.
Qed.

Lemma knownLoop_rejected schema kf kt :
  Exists (fun field => knownFieldType (bigquery.Type_ field) = None) schema ->
  exists err, knownLoop schema kf kt = inr err.
Proof.
  intros Hex. revert kf kt.
  induction schema as [|field schema IH]; intros kf kt.
  - by apply Exists_nil in Hex.
  - simpl. destruct (knownFieldType (bigquery.Type_ field)) as [goType|] eqn:Hty.
    + apply IH. apply Exists_cons in Hex as [Hex|Hex]; [congruence|exact Hex].
    + eauto.
Qed.

Lemma knownLoop_accepts schema kf kt known :
  knownLoop schema kf kt = inl known -> Forall permitted schema.
Proof.
  revert kf kt. induction schema as [|field schema IH]; intros kf kt; simpl.
  - constructor.
  - destruct (knownFieldType (bigquery.Type_ field)) as [goType|] eqn:Hty;
      [|discriminate].
    intros Hrun. constructor; [by exists goType|by eapply IH].
Qed.

Lemma knownLoop_types schema kf kt known field :
  NoDup (fieldNames schema) -> field ∈ schema ->
  knownLoop schema kf kt = inl known ->
  known.2 !! bigquery.Name field = knownFieldType (bigquery.Type_ field).
Proof.
  revert kf kt. induction schema as [|field' schema IH]; intros kf kt Hnd Hin.
  - by apply elem_of_nil in Hin.
  - unfold fieldNames in *. simpl in *. apply NoDup_cons in Hnd as [Hnin Hnd].
    destruct (knownFieldType (bigquery.Type_ field')) as [goType|] eqn:Hty;
      [|discriminate].
    intros Hrun. apply elem_of_cons in Hin as [->|Hin].
    + destruct (knownLoop_permitted schema
                  (<[bigquery.Name field' := true]> kf)
                  (<[bigquery.Name field' := goType]> kt)
                  (knownLoop_accepts _ _ _ _ Hrun))
        as (known' & Hrun' & _ & Htypes).
      rewrite Hrun in Hrun'. injection Hrun' as <-.
      rewrite Htypes by exact Hnin. by rewrite lookup_insert_eq, Hty.
    + by eapply IH.
Qed.

Lemma knownLoop_refuses schema kf kt err :
  knownLoop schema kf kt = inr err ->
  exists field,
    field ∈ schema /\ knownFieldType (bigquery.Type_ field) = None
    /\ err = refusedType field.
Proof.
  revert kf kt. induction schema as [|field schema IH]; intros kf kt; simpl.
  - discriminate.
  - destruct (knownFieldType (bigquery.Type_ field)) as [goType|] eqn:Hty.
    + intros (f & Hin & Hf)%IH. exists f. split; [by right|exact Hf].
    + intros Herr. injection Herr as <-. exists field. split; [left|done].
Qed.

Lemma knownLoop_last_type pre field post kf kt known :
  bigquery.Name field ∉ fieldNames post ->
  knownLoop (pre ++ field :: post) kf kt = inl known ->
  known.2 !! bigquery.Name field = knownFieldType (bigquery.Type_ field).
Proof.
  intros Hlast. revert kf kt. induction pre as [|f pre IH]; intros kf kt; simpl.
  - destruct (knownFieldType (bigquery.Type_ field)) as [goType|] eqn:Hty;
      [|discriminate].
    intros Hrun.
    destruct (knownLoop_permitted post
                (<[bigquery.Name field := true]> kf)
                (<[bigquery.Name field := goType]> kt)
                (knownLoop_accepts _ _ _ _ Hrun))
      as (known' & Hrun' & _ & Htypes).
    rewrite Hrun in Hrun'. injection Hrun' as <-.
    rewrite Htypes by exact Hlast. apply lookup_insert_eq.
  - destruct (knownFieldType (bigquery.Type_ f)); [apply IH|discriminate].
Qed.

Lemma initialState_Seen meta known :
  knownLoop (bigquery.Schema_ meta) ∅ ∅ = inl known ->
  Seen (initialState meta known) (list_to_set (fieldNames (bigquery.Schema_ meta))).
Proof.
  intros Hrun k.
  destruct (knownLoop_permitted _ ∅ ∅ (knownLoop_accepts _ _ _ _ Hrun))
    as (known' & Hrun' & Hknown & _).
  rewrite Hrun in Hrun'. injection Hrun' as <-.
  simpl. rewrite Hknown, elem_of_list_to_set. unfold index.
  rewrite lookup_empty. simpl. split; [intros [H|H]; [discriminate|done]|by right].
Qed.

(** The entries the loops visit are the entries of the rows. *)
Lemma entriesOf_elem rangeOrder rows key value :
  RangeOrders rangeOrder ->
  (key, value) ∈ entriesOf rangeOrder rows
  <-> exists (i : nat) (row : bigqueryrow),
        rows !! i = Some row /\ row !! key = Some value.
Proof.
  intros Hperm. unfold entriesOf. rewrite list_elem_of_In, in_concat. split.
  - intros (view & Hview & Hin).
    apply list_elem_of_In, elem_of_lookup_imap in Hview as (i & row & -> & Hrow).
    exists i, row. split; [exact Hrow|].
    apply list_elem_of_In in Hin. rewrite (Hperm i row) in Hin.
    by apply elem_of_map_to_list in Hin.
  - intros (i & row & Hrow & Hkey). exists (rangeOrder i row). split.
    + apply list_elem_of_In, elem_of_lookup_imap. eauto.
    + apply list_elem_of_In. rewrite (Hperm i row).
      by apply elem_of_map_to_list.
Qed.

Lemma entriesOf_keys rangeOrder rows key :
  RangeOrders rangeOrder ->
  key ∈ (entriesOf rangeOrder rows).*1 <-> batchField rows key.
Proof.
  intros Hperm. rewrite list_elem_of_fmap. unfold batchField. split.
  - intros ([k v] & -> & Hin). apply entriesOf_elem in Hin; [|exact Hperm].
    destruct Hin as (i & row & Hrow & Hkey). exists i, row. eauto.
  - intros (i & row & Hrow & [value Hkey]). exists (key, value).
    split; [reflexivity|]. apply entriesOf_elem; eauto.
Qed.

Lemma RangeOrders_shift rangeOrder (n : nat) :
  RangeOrders rangeOrder -> RangeOrders (fun i => rangeOrder (n + i)%nat).
Proof. intros Hperm i row. apply Hperm. Qed.

Lemma entriesOf_app rangeOrder (pre post : list bigqueryrow) :
  entriesOf rangeOrder (pre ++ post)
  = entriesOf rangeOrder pre
      ++ entriesOf (fun i => rangeOrder (length pre + i)%nat) post.
Proof. unfold entriesOf. by rewrite imap_app, concat_app. Qed.

Lemma NoDup_names_eq (l : bigquery.Schema) f g :
  NoDup (fieldNames l) -> f ∈ l -> g ∈ l ->
  bigquery.Name f = bigquery.Name g -> f = g.
Proof.
  intros Hnd [i Hi]%list_elem_of_lookup [j Hj]%list_elem_of_lookup Hname.
  assert (i = j) as ->.
  { apply (NoDup_lookup _ i j (bigquery.Name f) Hnd); unfold fieldNames;
      rewrite list_lookup_fmap; [by rewrite Hi|by rewrite Hj, Hname]. }
  congruence.
Qed.

(** The first row of the batch that has a new field stages it. *)
Lemma staged_first_row rangeOrder (pre post : list bigqueryrow)
    (row : bigqueryrow) seen key value :
  RangeOrders rangeOrder ->
  (forall r : bigqueryrow, r ∈ pre -> r !! key = None) ->
  row !! key = Some value ->
  key ∉ seen ->
  stagedField key value ∈ staged seen (entriesOf rangeOrder (pre ++ row :: post)).
Proof.
  intros Hperm Hpre Hrow Hseen.
  rewrite entriesOf_app. unfold entriesOf at 2. rewrite imap_cons. simpl.
  assert (Hview : (key, value) ∈ rangeOrder (length pre + 0)%nat row).
  { rewrite (Hperm _ row). by apply elem_of_map_to_list. }
  apply list_elem_of_split in Hview as (v1 & v2 & Hview).
  assert (Hv1 : key ∉ v1.*1).
  { pose proof (NoDup_fst_map_to_list row) as Hkeys.
    rewrite <- (Hperm (length pre + 0)%nat row), Hview in Hkeys.
    rewrite fmap_app, fmap_cons in Hkeys. simpl in Hkeys.
    apply NoDup_app in Hkeys as (_ & Hdisj & _).
    intros Hk. apply (Hdisj key Hk). left. }
  rewrite Hview, <- !app_assoc, app_assoc. simpl.
  apply staged_first; [exact Hseen|].
  rewrite fmap_app. intros [Hk|Hk]%elem_of_app; [|by apply Hv1].
  apply (entriesOf_keys rangeOrder pre key Hperm) in Hk as (i & r & Hr & [x Hx]).
  rewrite (Hpre r) in Hx; [discriminate|]. by eapply list_elem_of_lookup_2.
Qed.

Section Synchroniser.

Context {W : Type}.
Variable rangeOrder : nat -> bigqueryrow -> list (string * goValue).
Variable table : bigquery.Table W.
Implicit Types (w : W) (rows : list bigqueryrow).

Lemma updateSchema_fetch_failed rows w e w1 :
  bigquery.Metadata_ table w = (inr e, w1) ->
  updateSchema rangeOrder table rows w
  = (Some ("table metadata: " +:+ e), w1, [Metadata]).
Proof.
  intros Hmeta. unfold updateSchema, bind, Table_Metadata. by rewrite Hmeta.
Qed.

Lemma updateSchema_schema_rejected rows w meta w1 err :
  bigquery.Metadata_ table w = (inl meta, w1) ->
  knownLoop (bigquery.Schema_ meta) ∅ ∅ = inr err ->
  updateSchema rangeOrder table rows w = (Some err, w1, [Metadata]).
Proof.
  intros Hmeta Hknown. unfold updateSchema, bind, Table_Metadata.
  by rewrite Hmeta, Hknown.
Qed.

(** A run of [updateSchema] once the schema is fetched and accepted:
    nothing more when nothing is staged, one [Update] otherwise. *)
Lemma updateSchema_run rows w meta w1 known :
  bigquery.Metadata_ table w = (inl meta, w1) ->
  knownLoop (bigquery.Schema_ meta) ∅ ∅ = inl known ->
  let entries := entriesOf rangeOrder rows in
  let lines := loopLines entries (initialState meta known) in
  let new := staged (list_to_set (fieldNames (bigquery.Schema_ meta))) entries in
  let tm := {| bigquery.Schema_update := bigquery.Schema_ meta ++ new |} in
  updateSchema rangeOrder table rows w
  = match new with
    | [] => (None, w1, Metadata :: (Printf <$> lines))
    | _ :: _ =>
        (updateResult (bigquery.Update_ table tm (bigquery.ETag meta) w1).1,
         (bigquery.Update_ table tm (bigquery.ETag meta) w1).2,
         Metadata :: (Printf <$> lines)
           ++ [Printf (UpdatingSchemaCount
                         (size (newFields (loopState entries
                                             (initialState meta known)))));
               Update tm (bigquery.ETag meta)])
    end.
Proof.
  intros Hmeta Hknown entries lines new tm.
  destruct (loopState_staged entries _ _ (initialState_Seen meta known Hknown))
    as [Hschema Hdom].
  fold new in Hschema, Hdom. simpl in Hschema, Hdom.
  unfold updateSchema, bind, Table_Metadata. rewrite Hmeta, Hknown.
  destruct known as [kf kt].
  change {| knownFields := kf; knownFieldsTypes := kt;
            metaUpdate_Schema := bigquery.Schema_ meta; newFields := ∅ |}
    with (initialState meta (kf, kt)).
  rewrite rowsLoop_run. cbv beta iota zeta.
  change (concat (imap rangeOrder rows)) with entries. fold lines.
  rewrite Hschema. fold tm.
  destruct new as [|field new'] eqn:Hnew.
  - rewrite dom_empty_L, (left_id_L ∅ (∪)) in Hdom.
    apply dom_empty_inv_L in Hdom. rewrite Hdom, map_size_empty. simpl.
    by rewrite app_nil_r.
  - destruct (Nat.eqb_spec (size (newFields (loopState entries
                                        (initialState meta (kf, kt))))) 0)
      as [Hsize|Hsize].
    + apply map_size_empty_inv in Hsize. rewrite Hsize, dom_empty_L in Hdom.
      unfold fieldNames in Hdom. simpl in Hdom. set_solver.
    + unfold Table_Update, fmt_Printf, emit, ret.
      destruct (bigquery.Update_ table tm (bigquery.ETag meta) w1)
        as [[err|] w2]; simpl; rewrite ?app_nil_r; reflexivity.
Qed.

End Synchroniser.

(** A fetched field of a refused type ends the synchronisation at once. *)
Lemma updateSchema_refused {W}
    (rangeOrder : nat -> bigqueryrow -> list (string * goValue))
    (table : bigquery.Table W) (rows : list bigqueryrow)
    (w w1 w2 : W) meta err t :
  bigquery.Metadata_ table w = (inl meta, w1) ->
  ~ Forall permitted (bigquery.Schema_ meta) ->
  updateSchema rangeOrder table rows w = (err, w2, t) ->
  exists field,
    field ∈ bigquery.Schema_ meta
    /\ knownFieldType (bigquery.Type_ field) = None
    /\ err = Some (refusedType field) /\ w2 = w1 /\ t = [Metadata].
Proof.
  intros Hmeta Hnot Hrun.
  destruct (knownLoop (bigquery.Schema_ meta) ∅ ∅) as [known|e0] eqn:Hknown.
  - exfalso. apply Hnot. by eapply knownLoop_accepts.
  - rewrite (updateSchema_schema_rejected rangeOrder table rows w meta w1 e0
               Hmeta Hknown) in Hrun.
    injection Hrun as <- <- <-.
    destruct (knownLoop_refuses _ _ _ _ Hknown) as (field & Hin & Hty & ->).
    by exists field.
Qed.

Lemma mapOrder_RangeOrders : RangeOrders Samples.mapOrder.
Proof. intros i row. reflexivity. Qed.

Lemma staged_nil_NewField rangeOrder rows schema :
  RangeOrders rangeOrder ->
  staged (list_to_set (fieldNames schema)) (entriesOf rangeOrder rows) = []
  <-> ~ NewField rows schema.
Proof.
  intros Hperm. rewrite staged_nil_iff. split.
  - intros Hall (key & Hkey & Hnin). apply Hnin.
    apply (entriesOf_keys rangeOrder) in Hkey; [|exact Hperm].
    apply Hall in Hkey. by apply elem_of_list_to_set in Hkey.
  - intros Hno key Hkey. apply elem_of_list_to_set.
    destruct (decide (key ∈ fieldNames schema)) as [|Hnin]; [done|].
    exfalso. apply Hno. exists key. split; [|exact Hnin].
    by apply (entriesOf_keys rangeOrder).
Qed.

Lemma staged_batch_names rangeOrder rows schema key :
  RangeOrders rangeOrder ->
  key ∈ fieldNames (staged (list_to_set (fieldNames schema))
                           (entriesOf rangeOrder rows))
  <-> batchField rows key /\ key ∉ fieldNames schema.
Proof.
  intros Hperm. rewrite staged_names, (entriesOf_keys rangeOrder) by exact Hperm.
  rewrite elem_of_list_to_set. tauto.
Qed.

Lemma staged_cons_NewField rangeOrder rows schema field new :
  RangeOrders rangeOrder ->
  staged (list_to_set (fieldNames schema)) (entriesOf rangeOrder rows)
  = field :: new ->
  NewField rows schema.
Proof.
  intros Hperm Hstaged. exists (bigquery.Name field).
  apply (staged_batch_names rangeOrder); [exact Hperm|].
  rewrite Hstaged. unfold fieldNames. simpl. left.
Qed.

Lemma trace_with_update lines n tm etag :
  updatesOf (Metadata :: (Printf <$> lines) ++ [Printf (UpdatingSchemaCount n); Update tm etag])
  = [(bigquery.Schema_update tm, etag)]
  /\ fetchesOf (Metadata :: (Printf <$> lines) ++ [Printf (UpdatingSchemaCount n); Update tm etag]) = 1%nat
  /\ putsOf (Metadata :: (Printf <$> lines) ++ [Printf (UpdatingSchemaCount n); Update tm etag]) = []
  /\ sleepsOf (Metadata :: (Printf <$> lines) ++ [Printf (UpdatingSchemaCount n); Update tm etag]) = []
  /\ linesOf (Metadata :: (Printf <$> lines) ++ [Printf (UpdatingSchemaCount n); Update tm etag])
     = lines ++ [UpdatingSchemaCount n].
Proof.
  repeat split.
  - change (updatesOf (Metadata :: ?t)) with (updatesOf t).
    by rewrite updatesOf_app, updatesOf_Printf.
  - change (fetchesOf (Metadata :: ?t)) with (S (fetchesOf t)).
    by rewrite fetchesOf_app, fetchesOf_Printf.
  - change (putsOf (Metadata :: ?t)) with (putsOf t).
    by rewrite putsOf_app, putsOf_Printf.
  - change (sleepsOf (Metadata :: ?t)) with (sleepsOf t).
    by rewrite sleepsOf_app, sleepsOf_Printf.
  - change (linesOf (Metadata :: ?t)) with (linesOf t).
    unfold linesOf. rewrite omap_app. fold linesOf. by rewrite linesOf_Printf.
Qed.

Lemma trace_without_update lines :
  updatesOf (Metadata :: (Printf <$> lines)) = []
  /\ fetchesOf (Metadata :: (Printf <$> lines)) = 1%nat
  /\ putsOf (Metadata :: (Printf <$> lines)) = []
  /\ sleepsOf (Metadata :: (Printf <$> lines)) = []
  /\ linesOf (Metadata :: (Printf <$> lines)) = lines.
Proof.
  repeat split.
  - apply updatesOf_Printf.
  - change (fetchesOf (Metadata :: ?t)) with (S (fetchesOf t)).
    by rewrite fetchesOf_Printf.
  - apply putsOf_Printf.
  - apply sleepsOf_Printf.
  - apply linesOf_Printf.
Qed.

(** The requests of a run on an accepted schema, by what is staged. *)
Lemma updateSchema_requests {W}
    (rangeOrder : nat -> bigqueryrow -> list (string * goValue))
    (table : bigquery.Table W) (rows : list bigqueryrow)
    (w w1 w2 : W) meta err t :
  bigquery.Metadata_ table w = (inl meta, w1) ->
  Forall permitted (bigquery.Schema_ meta) ->
  updateSchema rangeOrder table rows w = (err, w2, t) ->
  fetchesOf t = 1%nat
  /\ match staged (list_to_set (fieldNames (bigquery.Schema_ meta)))
                  (entriesOf rangeOrder rows) with
     | [] => updatesOf t = [] /\ err = None /\ w2 = w1
     | field :: new =>
         updatesOf t
         = [(bigquery.Schema_ meta ++ field :: new, bigquery.ETag meta)]
     end.
Proof.
  intros Hmeta Hall Hrun.
  destruct (knownLoop_permitted _ ∅ ∅ Hall) as (known & Hknown & _).
  rewrite (updateSchema_run rangeOrder table rows w meta w1 known Hmeta Hknown)
    in Hrun.
  destruct (staged _ (entriesOf rangeOrder rows)) as [|field new] eqn:Hnew.
  - injection Hrun as <- <- <-.
    destruct (trace_without_update
                (loopLines (entriesOf rangeOrder rows) (initialState meta known)))
      as (Hu & Hf & _).
    by rewrite Hu, Hf.
  - injection Hrun as <- <- <-.
    match goal with
    | |- context [Metadata :: (Printf <$> ?l) ++ [Printf (UpdatingSchemaCount ?n); Update ?tm ?e]] =>
        destruct (trace_with_update l n tm e) as (Hu & Hf & _)
    end.
    by rewrite Hu, Hf.
Qed.

(** C5 (amended). When the fetched schema has fields of the six permitted
    types only, schema synchronisation issues an alteration request if and
    only if some field name of the batch is absent from the fetched schema:
    with every field present it returns success and changes nothing;
    otherwise it submits exactly one request, which carries the fetched
    schema followed by one definition per absent name, under the version
    token fetched with the schema. When the fetched schema has a field of
    another type, it returns the error that names that type and issues no
    request. *)
Theorem updateSchema_alters_iff_new_field {W}
    (rangeOrder : nat -> bigqueryrow -> list (string * goValue))
    (table : bigquery.Table W) (rows : list bigqueryrow)
    (w w1 w2 : W) meta err t :
  RangeOrders rangeOrder ->
  bigquery.Metadata_ table w = (inl meta, w1) ->
  updateSchema rangeOrder table rows w = (err, w2, t) ->
  fetchesOf t = 1%nat
  /\ (Forall permitted (bigquery.Schema_ meta) ->
      (updatesOf t <> [] <-> NewField rows (bigquery.Schema_ meta))
      /\ (~ NewField rows (bigquery.Schema_ meta) ->
          err = None /\ w2 = w1 /\ updatesOf t = [])
      /\ (NewField rows (bigquery.Schema_ meta) ->
          exists new,
            updatesOf t = [(bigquery.Schema_ meta ++ new, bigquery.ETag meta)]
            /\ NoDup (fieldNames new)
            /\ (forall key, key ∈ fieldNames new
                            <-> batchField rows key
                                /\ key ∉ fieldNames (bigquery.Schema_ meta))))
  /\ (~ Forall permitted (bigquery.Schema_ meta) ->
      exists field,
        field ∈ bigquery.Schema_ meta
        /\ knownFieldType (bigquery.Type_ field) = None
        /\ err = Some (refusedType field)
        /\ w2 = w1 /\ updatesOf t = []).
Proof.
  intros Hperm Hmeta Hrun.
  assert (Hrefused : ~ Forall permitted (bigquery.Schema_ meta) ->
            exists field,
              field ∈ bigquery.Schema_ meta
              /\ knownFieldType (bigquery.Type_ field) = None
              /\ err = Some (refusedType field) /\ w2 = w1 /\ t = [Metadata]).
  { intros Hnot. by eapply updateSchema_refused. }
  assert (Hpermitted : Forall permitted (bigquery.Schema_ meta) ->
            fetchesOf t = 1%nat
            /\ (updatesOf t <> [] <-> NewField rows (bigquery.Schema_ meta))
            /\ (~ NewField rows (bigquery.Schema_ meta) ->
                err = None /\ w2 = w1 /\ updatesOf t = [])
            /\ (NewField rows (bigquery.Schema_ meta) ->
                exists new,
                  updatesOf t
                  = [(bigquery.Schema_ meta ++ new, bigquery.ETag meta)]
                  /\ NoDup (fieldNames new)
                  /\ (forall key, key ∈ fieldNames new
                                  <-> batchField rows key
                                      /\ key ∉ fieldNames (bigquery.Schema_ meta)))).
  { intros Hall.
    destruct (updateSchema_requests rangeOrder table rows w w1 w2 meta err t
                Hmeta Hall Hrun) as [Hf Hreq].
    pose proof (staged_nil_NewField rangeOrder rows (bigquery.Schema_ meta) Hperm)
      as Hnil.
    pose proof (staged_NoDup (list_to_set (fieldNames (bigquery.Schema_ meta)))
                  (entriesOf rangeOrder rows)) as Hnd.
    pose proof (fun key => staged_batch_names rangeOrder rows
                             (bigquery.Schema_ meta) key Hperm) as Hnames.
    destruct (staged _ (entriesOf rangeOrder rows)) as [|field new] eqn:Hnew.
    - destruct Hreq as (Hu & -> & ->). rewrite Hu.
      apply proj1 in Hnil. specialize (Hnil eq_refl).
      repeat split; try done.
    - rewrite Hreq.
      pose proof (staged_cons_NewField rangeOrder rows _ field new Hperm Hnew)
        as Hnf.
      repeat split; try done.
      intros _. exists (field :: new). eauto. }
  split; [|split].
  - destruct (knownLoop (bigquery.Schema_ meta) ∅ ∅) as [known|e0] eqn:Hknown.
    + apply Hpermitted. by eapply knownLoop_accepts.
    + rewrite (updateSchema_schema_rejected rangeOrder table rows w meta w1 e0
                 Hmeta Hknown) in Hrun.
      by injection Hrun as <- <- <-.
  - intros Hall. by apply Hpermitted.
  - intros Hnot. destruct (Hrefused Hnot) as (field & Hin & Hty & He & Hw & ->).
    by exists field.
Qed.

Lemma updateSchema_alters_iff_new_field_witness :
  NewField Samples.statusRows (bigquery.Schema_ Samples.metaNameOnly)
  /\ exists new,
       updatesOf (updateSchema Samples.mapOrder
                    (Samples.store Samples.metaNameOnly []) Samples.statusRows
                    0%nat).2
       = [(bigquery.Schema_ Samples.metaNameOnly ++ new, "etag-1")].
Proof.
  assert (Hnew : NewField Samples.statusRows (bigquery.Schema_ Samples.metaNameOnly)).
  { exists "http_status". split.
    - exists 0%nat. eexists. split; [reflexivity|]. vm_compute. eauto.
    - intros Hin. repeat (apply elem_of_cons in Hin as [Hin|Hin]; [discriminate|]).
      by apply elem_of_nil in Hin. }
  split; [exact Hnew|].
  destruct (updateSchema Samples.mapOrder (Samples.store Samples.metaNameOnly [])
              Samples.statusRows 0%nat) as [[err w2] t] eqn:Hrun.
  destruct (updateSchema_alters_iff_new_field Samples.mapOrder
              (Samples.store Samples.metaNameOnly []) Samples.statusRows
              0%nat 0%nat w2 Samples.metaNameOnly err t
              mapOrder_RangeOrders eq_refl Hrun) as (_ & Hok & _).
  destruct Hok as (_ & _ & Hex).
  - repeat constructor. by exists "string".
  - destruct (Hex Hnew) as (new & Hu & _). by exists new.
Defined.

(** C5, as stated, fails: when the fetched schema has a column of another
    type (here INTEGER), a batch with a field absent from the schema gets an
    error and no alteration request. *)
Lemma updateSchema_rejects_integer_column :
  NewField Samples.statusRows (bigquery.Schema_ Samples.metaInteger)
  /\ updateSchema Samples.mapOrder (Samples.store Samples.metaInteger [])
       Samples.statusRows 0%nat
     = (Some "BigQuery field type INTEGER incompatible with span attribute value types",
        0%nat, [Metadata]).
Proof.
  split.
  - exists "http_status". split.
    + exists 0%nat. eexists. split; [reflexivity|]. vm_compute. eauto.
    + intros Hin. repeat (apply elem_of_cons in Hin as [Hin|Hin]; [discriminate|]).
      by apply elem_of_nil in Hin.
  - vm_compute. reflexivity.
Qed.

(** A value whose recorded type differs from the known one is reported. *)
Lemma loopLines_mismatch entries st key value :
  (key, value) ∈ entries ->
  index false (knownFields st) key = true ->
  index "" (knownFieldsTypes st) key <> TypeOf_String value ->
  SchemaFieldMismatch key (TypeOf_String value) ∈ loopLines entries st.
Proof.
  revert st. induction entries as [|[k v] entries IH]; intros st Hin Hk Hty.
  - by apply elem_of_nil in Hin.
  - rewrite loopLines_cons. apply elem_of_app.
    apply elem_of_cons in Hin as [Heq|Hin].
    + injection Heq as <- <-. left. rewrite fieldLines_mismatch by assumption. left.
    + right. apply IH; [exact Hin| |].
      * destruct (index false (knownFields st) k) eqn:Hk'.
        -- by rewrite fieldStep_known.
        -- rewrite fieldStep_new by exact Hk'. simpl.
           rewrite index_insert_ne; [exact Hk|]. intros ->. congruence.
      * destruct (index false (knownFields st) k) eqn:Hk'.
        -- by rewrite fieldStep_known.
        -- rewrite fieldStep_new by exact Hk'. simpl.
           rewrite index_insert_ne; [exact Hty|]. intros ->. congruence.
Qed.

(** The types the switch of [updateSchema] assigns: the part of the
    mapping of C3 that the code implements. *)
Lemma inferredType_mapping key :
  (forall value, inferredType "ts" value = bigquery.TimestampFieldType)
  /\ (key <> "ts" ->
      (forall b, inferredType key (GoBool b) = bigquery.BooleanFieldType)
      /\ (forall d, inferredType key (GoFloat64 d) = bigquery.BigNumericFieldType)
      /\ (forall i, inferredType key (GoInt64 i) = bigquery.NumericFieldType)
      /\ (forall s, inferredType key (GoString s) = bigquery.StringFieldType)
      /\ (forall b, inferredType key (GoUint8 b) = bigquery.BytesFieldType)).
Proof.
  split; [reflexivity|]. intros Hts%String.eqb_neq.
  unfold inferredType, newFieldType. rewrite Hts. repeat split.
Qed.

Lemma inferredType_unsupported key value :
  key <> "ts" -> typeSwitch value = None ->
  inferredType key value = bigquery.ZeroFieldType.
Proof.
  intros Hts%String.eqb_neq Hsw. unfold inferredType, newFieldType.
  by rewrite Hts, Hsw.
Qed.

(** C3 (the code departs from it). A bytes attribute is stored in the row as
    a [pcommon.ByteSlice]; the type switch of [updateSchema] has a case for
    [byte] only, so the field is staged with the empty field type, not with
    the bytes type. *)
Theorem bytes_attribute_gets_empty_type k bs (row : bigqueryrow) :
  fieldName k <> "ts" ->
  addKeyValue k (pcommon.NewValueBytes bs) row !! fieldName k
  = Some (GoByteSlice bs)
  /\ inferredType (fieldName k) (GoByteSlice bs) = bigquery.ZeroFieldType
  /\ stagedField (fieldName k) (GoByteSlice bs)
     <> {| bigquery.Name := fieldName k;
           bigquery.Type_ := bigquery.BytesFieldType;
           bigquery.Required := false |}.
Proof.
  intros Hts.
  assert (Hty : inferredType (fieldName k) (GoByteSlice bs) = bigquery.ZeroFieldType)
    by (by apply inferredType_unsupported).
  split; [apply lookup_insert_eq|]. split; [exact Hty|].
  unfold stagedField. rewrite Hty. discriminate.
Qed.

Lemma bytes_attribute_gets_empty_type_witness :
  updatesOf (updateSchema Samples.mapOrder (Samples.store Samples.metaNameOnly [])
               Samples.bytesRows 0%nat).2
  = [([Samples.field "name" bigquery.StringFieldType;
       Samples.field "payload" bigquery.ZeroFieldType], "etag-1")]
  /\ inferredType (fieldName "payload") (GoByteSlice [x00; xff])
     = bigquery.ZeroFieldType.
Proof.
  split; [vm_compute; reflexivity|].
  apply (bytes_attribute_gets_empty_type "payload" [x00; xff] ∅). discriminate.
Defined.

(** C6 (amended). Schema evolution only appends: every alteration request
    carries the fetched schema unchanged, followed by definitions under names
    the fetched schema lacks. When the fetched schema has fields of the six
    permitted types only, a value whose Go type differs from the one recorded
    for the remote field of its name (the last field of that name in the
    fetched schema) is reported by a printed warning and nothing more: the
    synchroniser goes on, and its only error is the store's rejection of the
    request. When the fetched schema has a field of another type, the
    synchroniser returns the error that names that type before looking at
    any value: it prints no warning and issues no request. *)
Theorem updateSchema_keeps_remote_fields {W}
    (rangeOrder : nat -> bigqueryrow -> list (string * goValue))
    (table : bigquery.Table W) (rows : list bigqueryrow)
    (w w1 w2 : W) meta err t :
  RangeOrders rangeOrder ->
  bigquery.Metadata_ table w = (inl meta, w1) ->
  updateSchema rangeOrder table rows w = (err, w2, t) ->
  (forall schema etag, (schema, etag) ∈ updatesOf t ->
     exists new, schema = bigquery.Schema_ meta ++ new
                 /\ forall f, f ∈ new ->
                      bigquery.Name f ∉ fieldNames (bigquery.Schema_ meta))
  /\ (Forall permitted (bigquery.Schema_ meta) ->
      (forall (i : nat) (row : bigqueryrow) value pre field post goType,
         rows !! i = Some row ->
         row !! bigquery.Name field = Some value ->
         bigquery.Schema_ meta = pre ++ field :: post ->
         bigquery.Name field ∉ fieldNames post ->
         knownFieldType (bigquery.Type_ field) = Some goType ->
         goType <> TypeOf_String value ->
         SchemaFieldMismatch (bigquery.Name field) (TypeOf_String value)
           ∈ linesOf t)
      /\ (err = None
          \/ exists tm e,
               (bigquery.Update_ table tm (bigquery.ETag meta) w1).1 = Some e
               /\ Update tm (bigquery.ETag meta) ∈ t
               /\ err = Some ("unable to update schema: " +:+ e)))
  /\ (~ Forall permitted (bigquery.Schema_ meta) ->
      exists field,
        field ∈ bigquery.Schema_ meta
        /\ knownFieldType (bigquery.Type_ field) = None
        /\ err = Some (refusedType field)
        /\ w2 = w1 /\ t = [Metadata]).
Proof.
  intros Hperm Hmeta Hrun.
  split; [|split]; cycle 2.
  { intros Hnot. by eapply updateSchema_refused. }
  - destruct (knownLoop (bigquery.Schema_ meta) ∅ ∅) as [known|e0] eqn:Hknown;
      cycle 1.
    { rewrite (updateSchema_schema_rejected rangeOrder table rows w meta w1 e0
                 Hmeta Hknown) in Hrun.
      injection Hrun as <- <- <-. intros schema etag Hin.
      by apply elem_of_nil in Hin. }
    rewrite (updateSchema_run rangeOrder table rows w meta w1 known Hmeta Hknown)
      in Hrun.
    pose proof (fun key => staged_batch_names rangeOrder rows
                             (bigquery.Schema_ meta) key Hperm) as Hnames.
    destruct (staged _ (entriesOf rangeOrder rows)) as [|field0 new] eqn:Hnew.
    + injection Hrun as <- <- <-.
      destruct (trace_without_update
                  (loopLines (entriesOf rangeOrder rows) (initialState meta known)))
        as (Hu & _).
      rewrite Hu. intros schema etag Hin. by apply elem_of_nil in Hin.
    + injection Hrun as <- <- <-.
      match goal with
      | |- context [Metadata :: (Printf <$> ?l) ++ [Printf (UpdatingSchemaCount ?n); Update ?tm ?e]] =>
          destruct (trace_with_update l n tm e) as (Hu & _)
      end.
      rewrite Hu. intros schema etag Hin. apply list_elem_of_singleton in Hin.
      injection Hin as -> ->. exists (field0 :: new). split; [reflexivity|].
      intros f Hf. apply (Hnames (bigquery.Name f)).
      unfold fieldNames. apply list_elem_of_fmap. eauto.
  - intros Hall.
    destruct (knownLoop_permitted _ ∅ ∅ Hall) as (known & Hknown & Hkf & _).
    rewrite (updateSchema_run rangeOrder table rows w meta w1 known Hmeta Hknown)
      in Hrun.
    assert (Hwarn :
      forall (i : nat) (row : bigqueryrow) value pre field post goType,
        rows !! i = Some row ->
        row !! bigquery.Name field = Some value ->
        bigquery.Schema_ meta = pre ++ field :: post ->
        bigquery.Name field ∉ fieldNames post ->
        knownFieldType (bigquery.Type_ field) = Some goType ->
        goType <> TypeOf_String value ->
        SchemaFieldMismatch (bigquery.Name field) (TypeOf_String value)
          ∈ loopLines (entriesOf rangeOrder rows) (initialState meta known)).
    { intros i row value pre field post goType Hrow Hkey Hsplit Hlast Hty Hne.
      apply loopLines_mismatch.
      - apply entriesOf_elem; eauto.
      - simpl. apply Hkf. right. rewrite Hsplit. unfold fieldNames.
        rewrite fmap_app. apply elem_of_app. right. left.
      - simpl. unfold index. rewrite Hsplit in Hknown.
        by rewrite (knownLoop_last_type _ _ _ _ _ _ Hlast Hknown), Hty. }
    destruct (staged _ (entriesOf rangeOrder rows)) as [|field0 new] eqn:Hnew.
    + injection Hrun as <- <- <-.
      destruct (trace_without_update
                  (loopLines (entriesOf rangeOrder rows) (initialState meta known)))
        as (_ & _ & _ & _ & Hl).
      rewrite Hl. split; [exact Hwarn|by left].
    + injection Hrun as <- <- <-.
      match goal with
      | |- context [Metadata :: (Printf <$> ?l) ++ [Printf (UpdatingSchemaCount ?n); Update ?tm ?e]] =>
          destruct (trace_with_update l n tm e) as (_ & _ & _ & _ & Hl)
      end.
      rewrite Hl. split.
      * intros i row value pre field post goType Hrow Hkey Hsplit Hlast Hty Hne.
        apply elem_of_app. left. eauto.
      * match goal with
        | |- context [bigquery.Update_ table ?tm ?e w1] =>
            destruct (bigquery.Update_ table tm e w1) as [[e'|] w'] eqn:Hup
        end; simpl; [right|by left].
        eexists _, e'. split; [by rewrite Hup|]. split; [|reflexivity].
        right. apply elem_of_app. right. right. left.
Qed.

Lemma updateSchema_keeps_remote_fields_witness :
  SchemaFieldMismatch "name" "string"
    ∈ linesOf (updateSchema Samples.mapOrder
                 (Samples.store Samples.metaBooleanName []) Samples.statusRows
                 0%nat).2
  /\ updatesOf (updateSchema Samples.mapOrder
                  (Samples.store Samples.metaBooleanName []) Samples.statusRows
                  0%nat).2
     = [([Samples.field "name" bigquery.BooleanFieldType;
          Samples.field "http_status" bigquery.NumericFieldType], "etag-4")].
Proof.
  split; [|vm_compute; reflexivity].
  destruct (updateSchema Samples.mapOrder (Samples.store Samples.metaBooleanName [])
              Samples.statusRows 0%nat) as [[err w2] t] eqn:Hrun.
  destruct (updateSchema_keeps_remote_fields Samples.mapOrder
              (Samples.store Samples.metaBooleanName []) Samples.statusRows
              0%nat 0%nat w2 Samples.metaBooleanName err t
              mapOrder_RangeOrders eq_refl Hrun) as (_ & Hok & _).
  destruct Hok as [Hwarn _].
  - repeat constructor. by exists "bool".
  - apply (Hwarn 0%nat (default ∅ (Samples.statusRows !! 0%nat))
             (GoString "span1") []
             (Samples.field "name" bigquery.BooleanFieldType) [] "bool");
      try reflexivity; [|discriminate].
    intros Hin. by apply elem_of_nil in Hin.
Defined.

(** C6, as stated, fails: when the fetched schema has a column of another
    type (here INTEGER), a value that does not match its remote field (a
    string under the BOOLEAN field "name") is not reported, and the
    synchroniser ends in an error. *)
Lemma updateSchema_refused_schema_hides_mismatch :
  knownFieldType bigquery.BooleanFieldType = Some "bool"
  /\ default ∅ (Samples.statusRows !! 0%nat) !! "name" = Some (GoString "span1")
  /\ TypeOf_String (GoString "span1") = "string"
  /\ updateSchema Samples.mapOrder (Samples.store Samples.metaBooleanInteger [])
       Samples.statusRows 0%nat
     = (Some "BigQuery field type INTEGER incompatible with span attribute value types",
        0%nat, [Metadata]).
Proof. repeat split; vm_compute; reflexivity. Qed.

(** C10 (amended). When the fetched schema has fields of the six permitted
    types only, a new field that is not named "ts" and whose value, in the
    first row of the batch that has the field, is of none of the Go types
    bool, float64, int64, string and byte is neither skipped nor refused: its
    definition, with the empty field type, is part of the one alteration
    request, which defines the name once, and the result of the synchroniser
    is the store's answer to that request. When the fetched schema has a
    field of another type, the synchroniser returns the error that names
    that type before looking at the batch, and sends no request. *)
Theorem updateSchema_stages_unsupported_type {W}
    (rangeOrder : nat -> bigqueryrow -> list (string * goValue))
    (table : bigquery.Table W) (pre post : list bigqueryrow) (row : bigqueryrow)
    (w w1 w2 : W) meta err t key value :
  RangeOrders rangeOrder ->
  bigquery.Metadata_ table w = (inl meta, w1) ->
  updateSchema rangeOrder table (pre ++ row :: post) w = (err, w2, t) ->
  (forall r : bigqueryrow, r ∈ pre -> r !! key = None) ->
  row !! key = Some value ->
  typeSwitch value = None ->
  key <> "ts" ->
  key ∉ fieldNames (bigquery.Schema_ meta) ->
  (Forall permitted (bigquery.Schema_ meta) ->
   exists new,
     updatesOf t = [(bigquery.Schema_ meta ++ new, bigquery.ETag meta)]
     /\ {| bigquery.Name := key;
           bigquery.Type_ := bigquery.ZeroFieldType;
           bigquery.Required := false |} ∈ new
     /\ (forall f, f ∈ new -> bigquery.Name f = key ->
                   bigquery.Type_ f = bigquery.ZeroFieldType)
     /\ err = updateResult
                (bigquery.Update_ table
                   {| bigquery.Schema_update := bigquery.Schema_ meta ++ new |}
                   (bigquery.ETag meta) w1).1)
  /\ (~ Forall permitted (bigquery.Schema_ meta) ->
      exists field,
        field ∈ bigquery.Schema_ meta
        /\ knownFieldType (bigquery.Type_ field) = None
        /\ err = Some (refusedType field)
        /\ w2 = w1 /\ t = [Metadata]).
Proof.
  intros Hperm Hmeta Hrun Hpre Hrow Hsw Hts Hnin.
  split; [|intros Hnot; by eapply updateSchema_refused].
  intros Hall.
  destruct (knownLoop_permitted _ ∅ ∅ Hall) as (known & Hknown & _).
  rewrite (updateSchema_run rangeOrder table _ w meta w1 known Hmeta Hknown)
    in Hrun.
  assert (Hzero : stagedField key value
                  = {| bigquery.Name := key;
                       bigquery.Type_ := bigquery.ZeroFieldType;
                       bigquery.Required := false |}).
  { unfold stagedField. by rewrite (inferredType_unsupported key value Hts Hsw). }
  assert (Hfield : stagedField key value
                     ∈ staged (list_to_set (fieldNames (bigquery.Schema_ meta)))
                         (entriesOf rangeOrder (pre ++ row :: post))).
  { apply staged_first_row; try assumption. by rewrite elem_of_list_to_set. }
  pose proof (staged_NoDup (list_to_set (fieldNames (bigquery.Schema_ meta)))
                (entriesOf rangeOrder (pre ++ row :: post))) as Hnd.
  destruct (staged _ (entriesOf rangeOrder (pre ++ row :: post)))
    as [|field0 new] eqn:Hnew.
  - by apply elem_of_nil in Hfield.
  - injection Hrun as <- <- <-.
    match goal with
    | |- context [Metadata :: (Printf <$> ?l) ++ [Printf (UpdatingSchemaCount ?n); Update ?tm ?e]] =>
        destruct (trace_with_update l n tm e) as (Hu & _)
    end.
    exists (field0 :: new). rewrite Hu, <- Hzero.
    split; [reflexivity|]. split; [exact Hfield|]. split; [|reflexivity].
    intros f Hf Hname.
    rewrite (NoDup_names_eq (field0 :: new) f (stagedField key value) Hnd Hf Hfield
               Hname).
    by rewrite Hzero.
Qed.

Lemma updateSchema_stages_unsupported_type_witness :
  exists new,
    updatesOf (updateSchema Samples.mapOrder
                 (Samples.store Samples.metaNameOnly []) [Samples.bytesRow]
                 0%nat).2
    = [(bigquery.Schema_ Samples.metaNameOnly ++ new, "etag-1")]
    /\ Samples.field "payload" bigquery.ZeroFieldType ∈ new.
Proof.
  assert (Hpre : forall r : bigqueryrow,
            r ∈ @nil bigqueryrow -> r !! "payload" = None).
  { intros r Hr. by apply elem_of_nil in Hr. }
  assert (Hnew : "payload" ∉ fieldNames (bigquery.Schema_ Samples.metaNameOnly)).
  { intros Hin. repeat (apply elem_of_cons in Hin as [Hin|Hin]; [discriminate|]).
    by apply elem_of_nil in Hin. }
  assert (Hts : "payload" <> "ts") by discriminate.
  assert (Hall : Forall permitted (bigquery.Schema_ Samples.metaNameOnly)).
  { repeat constructor. by exists "string". }
  change [Samples.bytesRow] with ([] ++ Samples.bytesRow :: []).
  destruct (updateSchema Samples.mapOrder (Samples.store Samples.metaNameOnly [])
              ([] ++ Samples.bytesRow :: []) 0%nat) as [[err w2] t] eqn:Hrun.
  destruct (proj1 (updateSchema_stages_unsupported_type Samples.mapOrder
              (Samples.store Samples.metaNameOnly [])
              [] [] Samples.bytesRow
              0%nat 0%nat w2 Samples.metaNameOnly err t "payload"
              (GoByteSlice [x00; xff])
              mapOrder_RangeOrders eq_refl Hrun Hpre eq_refl eq_refl Hts Hnew)
              Hall) as (new & Hu & Hin & _).
  exists new. split; [exact Hu|exact Hin].
Defined.

(** C10, as stated, fails: when the fetched schema has a column of another
    type (here INTEGER), the new bytes field "payload" is not staged, an
    error is returned and no request is sent; and a field that holds a
    string in the first row and bytes in the second is staged as a string,
    not with the empty type. *)
Lemma updateSchema_refuses_before_staging :
  ("payload" ∉ fieldNames (bigquery.Schema_ Samples.metaInteger))
  /\ default ∅ (Samples.bytesRows !! 0%nat) !! "payload"
     = Some (GoByteSlice [x00; xff])
  /\ typeSwitch (GoByteSlice [x00; xff]) = None
  /\ updateSchema Samples.mapOrder (Samples.store Samples.metaInteger [])
       Samples.bytesRows 0%nat
     = (Some "BigQuery field type INTEGER incompatible with span attribute value types",
        0%nat, [Metadata])
  /\ updatesOf (updateSchema Samples.mapOrder
                  (Samples.store Samples.metaNameOnly []) Samples.mixedBytesRows
                  0%nat).2
     = [([Samples.field "name" bigquery.StringFieldType;
          Samples.field "payload" bigquery.StringFieldType], "etag-1")].
Proof.
  split.
  { intros Hin. repeat (apply elem_of_cons in Hin as [Hin|Hin]; [discriminate|]).
    by apply elem_of_nil in Hin. }
  repeat split; vm_compute; reflexivity.
Qed.

(** ** The batch inserter *)

(** Whatever its outcome, a synchronisation fetches the schema once, and
    neither inserts nor sleeps. *)
Lemma updateSchema_trace_shape {W}
    (rangeOrder : nat -> bigqueryrow -> list (string * goValue))
    (table : bigquery.Table W) (rows : list bigqueryrow) (w : W) :
  fetchesOf (updateSchema rangeOrder table rows w).2 = 1%nat
  /\ putsOf (updateSchema rangeOrder table rows w).2 = []
  /\ sleepsOf (updateSchema rangeOrder table rows w).2 = []
  /\ (length (updatesOf (updateSchema rangeOrder table rows w).2) <= 1)%nat.
Proof.
  destruct (bigquery.Metadata_ table w) as [[meta|e] w1] eqn:Hmeta.
  - destruct (knownLoop (bigquery.Schema_ meta) ∅ ∅) as [known|err] eqn:Hknown.
    + rewrite (updateSchema_run rangeOrder table rows w meta w1 known Hmeta Hknown).
      destruct (staged _ (entriesOf rangeOrder rows)) as [|field new]; cbn [snd].
      * destruct (trace_without_update
                    (loopLines (entriesOf rangeOrder rows) (initialState meta known)))
          as (Hu & Hf & Hp & Hs & _).
        rewrite Hu, Hf, Hp, Hs. simpl. repeat split; lia.
      * match goal with
        | |- context [Metadata :: (Printf <$> ?l) ++ [Printf (UpdatingSchemaCount ?n); Update ?tm ?e]] =>
            destruct (trace_with_update l n tm e) as (Hu & Hf & Hp & Hs & _)
        end.
        rewrite Hu, Hf, Hp, Hs. simpl. repeat split; lia.
    + rewrite (updateSchema_schema_rejected rangeOrder table rows w meta w1 err
                 Hmeta Hknown). simpl. repeat split; lia.
  - rewrite (updateSchema_fetch_failed rangeOrder table rows w e w1 Hmeta).
    simpl. repeat split; lia.
Qed.

(** A synchronisation that succeeds has fetched a schema it accepts. *)
Lemma updateSchema_success {W}
    (rangeOrder : nat -> bigqueryrow -> list (string * goValue))
    (table : bigquery.Table W) (rows : list bigqueryrow) (w w2 : W) t :
  updateSchema rangeOrder table rows w = (None, w2, t) ->
  exists meta w1,
    bigquery.Metadata_ table w = (inl meta, w1)
    /\ Forall permitted (bigquery.Schema_ meta).
Proof.
  intros Hrun.
  destruct (bigquery.Metadata_ table w) as [[meta|e] w1] eqn:Hmeta.
  - destruct (knownLoop (bigquery.Schema_ meta) ∅ ∅) as [known|err] eqn:Hknown.
    + exists meta, w1. split; [reflexivity|]. by eapply knownLoop_accepts.
    + rewrite (updateSchema_schema_rejected rangeOrder table rows w meta w1 err
                 Hmeta Hknown) in Hrun. discriminate Hrun.
  - rewrite (updateSchema_fetch_failed rangeOrder table rows w e w1 Hmeta) in Hrun.
    discriminate Hrun.
Qed.

(** C1. With the flexible-schema flag off, a batch whose insert fails with
    an unknown-field error gets that error back at once: the insert is the
    only remote call, so no schema is fetched and no alteration requested. *)
Theorem sendRows_inflexible_returns_error {W}
    (rangeOrder : nat -> bigqueryrow -> list (string * goValue))
    (sender : bigquerySender W) (rows : list bigqueryrow) (w w1 : W) e :
  SchemaFlexible (sender_Config sender) = false ->
  bigquery.Put_ (tableOf sender) rows w = (Some e, w1) ->
  Contains e "no such field" = true ->
  sendRows rangeOrder sender rows w = (Some e, w1, [Put rows])
  /\ fetchesOf (sendRows rangeOrder sender rows w).2 = 0%nat
  /\ updatesOf (sendRows rangeOrder sender rows w).2 = []
  /\ sleepsOf (sendRows rangeOrder sender rows w).2 = []
  /\ putsOf (sendRows rangeOrder sender rows w).2 = [rows].
Proof.
  intros Hflag Hput Hunknown.
  assert (Hrun : sendRows rangeOrder sender rows w = (Some e, w1, [Put rows])).
  { unfold sendRows, bind, Inserter_Put. fold (tableOf sender).
    by rewrite Hput, Hunknown, Hflag. }
  rewrite Hrun. repeat split.
Qed.

Lemma sendRows_inflexible_returns_error_witness :
  sendRows Samples.mapOrder
    (Samples.sender false
       (Samples.store Samples.metaNameOnly [Some Samples.unknownField]))
    Samples.statusRows 0%nat
  = (Some Samples.unknownField, 1%nat, [Put Samples.statusRows]).
Proof.
  apply (sendRows_inflexible_returns_error Samples.mapOrder
           (Samples.sender false
              (Samples.store Samples.metaNameOnly [Some Samples.unknownField]))
           Samples.statusRows 0%nat 1%nat Samples.unknownField);
    reflexivity.
Defined.

(** The older [insertRows] never reads the flag: with the synchroniser
    above it is [sendRows] with the flag set. *)
Lemma insertRows_ignores_flag {W}
    (rangeOrder : nat -> bigqueryrow -> list (string * goValue))
    (sender : bigquerySender W) (rows : list bigqueryrow) (w : W) :
  insertRows (updateSchema rangeOrder) sender rows w
  = sendRows rangeOrder (withSchemaFlexible sender) rows w.
Proof.
  unfold insertRows, sendRows, bind, Inserter_Put. simpl.
  destruct (bigquery.Put_ _ rows w) as [[e|] w1]; [|reflexivity].
  destruct (Contains e "no such field"); reflexivity.
Qed.

(** C2 (amended). With the flag on, a batch whose first insert fails with an
    unknown-field error and whose synchronisation succeeds is resubmitted
    exactly once, unchanged, after the synchronisation and the fixed wait of
    sixty seconds, and the result of the resubmission is returned as it is,
    with no second synchronisation. The synchronisation fetches the schema
    once and issues at most one alteration request: exactly one when the
    batch has a field the fetched schema lacks, none otherwise. *)
Theorem sendRows_syncs_and_retries_once {W}
    (rangeOrder : nat -> bigqueryrow -> list (string * goValue))
    (sender : bigquerySender W) (rows : list bigqueryrow)
    (w w1 w2 w3 : W) e ts r :
  RangeOrders rangeOrder ->
  SchemaFlexible (sender_Config sender) = true ->
  bigquery.Put_ (tableOf sender) rows w = (Some e, w1) ->
  Contains e "no such field" = true ->
  updateSchema rangeOrder (tableOf sender) rows w1 = (None, w2, ts) ->
  bigquery.Put_ (tableOf sender) rows w2 = (r, w3) ->
  sendRows rangeOrder sender rows w = (r, w3, retryTrace rows ts)
  /\ putsOf (retryTrace rows ts) = [rows; rows]
  /\ sleepsOf (retryTrace rows ts) = [60 * Second]
  /\ fetchesOf (retryTrace rows ts) = 1%nat
  /\ updatesOf (retryTrace rows ts) = updatesOf ts
  /\ exists meta w',
       bigquery.Metadata_ (tableOf sender) w1 = (inl meta, w')
       /\ (updatesOf ts <> [] <-> NewField rows (bigquery.Schema_ meta))
       /\ (~ NewField rows (bigquery.Schema_ meta) -> updatesOf ts = [])
       /\ (NewField rows (bigquery.Schema_ meta) ->
           exists new,
             updatesOf ts
             = [(bigquery.Schema_ meta ++ new, bigquery.ETag meta)]).
Proof.
  intros Hperm Hflag Hput Hunknown Hsync Hretry.
  destruct (updateSchema_trace_shape rangeOrder (tableOf sender) rows w1)
    as (Hf & Hp & Hs & _).
  rewrite Hsync in Hf, Hp, Hs. simpl in Hf, Hp, Hs.
  split; [|split; [|split; [|split; [|split]]]].
  - unfold sendRows, bind, Inserter_Put. fold (tableOf sender).
    rewrite Hput, Hunknown, Hflag, Hsync. unfold fmt_Printf, time_Sleep, emit.
    by rewrite Hretry.
  - unfold retryTrace. change (putsOf (Put rows :: ?t)) with (rows :: putsOf t).
    by rewrite putsOf_app, Hp.
  - unfold retryTrace. change (sleepsOf (Put rows :: ?t)) with (sleepsOf t).
    by rewrite sleepsOf_app, Hs.
  - unfold retryTrace. change (fetchesOf (Put rows :: ?t)) with (fetchesOf t).
    by rewrite fetchesOf_app, Hf.
  - unfold retryTrace. change (updatesOf (Put rows :: ?t)) with (updatesOf t).
    by rewrite updatesOf_app, app_nil_r.
  - destruct (updateSchema_success rangeOrder (tableOf sender) rows w1 w2 ts Hsync)
      as (meta & w' & Hmeta & Hall).
    exists meta, w'. split; [exact Hmeta|].
    destruct (updateSchema_requests rangeOrder (tableOf sender) rows w1 w' w2
                meta None ts Hmeta Hall Hsync) as [_ Hreq].
    pose proof (staged_nil_NewField rangeOrder rows (bigquery.Schema_ meta) Hperm)
      as Hnil.
    destruct (staged _ (entriesOf rangeOrder rows)) as [|field new] eqn:Hnew.
    + destruct Hreq as (Hu & _). rewrite Hu.
      apply proj1 in Hnil. specialize (Hnil eq_refl).
      repeat split; try done.
    + rewrite Hreq.
      pose proof (staged_cons_NewField rangeOrder rows _ field new Hperm Hnew)
        as Hnf.
      repeat split; try done. intros _. by exists (field :: new).
Qed.

Lemma sendRows_syncs_and_retries_once_witness :
  sendRows Samples.mapOrder
    (Samples.sender true
       (Samples.store Samples.metaNameOnly
          [Some Samples.unknownField; Some Samples.unknownField]))
    Samples.statusRows 0%nat
  = (Some Samples.unknownField, 2%nat,
     retryTrace Samples.statusRows
       [Metadata;
        Printf (UpdatingSchemaField "http_status" bigquery.NumericFieldType);
        Printf (UpdatingSchemaCount 1);
        Update {| bigquery.Schema_update :=
                    [Samples.field "name" bigquery.StringFieldType;
                     Samples.field "http_status" bigquery.NumericFieldType] |}
               "etag-1"]).
Proof.
  apply (sendRows_syncs_and_retries_once Samples.mapOrder
           (Samples.sender true
              (Samples.store Samples.metaNameOnly
                 [Some Samples.unknownField; Some Samples.unknownField]))
           Samples.statusRows 0%nat 1%nat 1%nat 2%nat Samples.unknownField);
    [exact mapOrder_RangeOrders|reflexivity|reflexivity|reflexivity
    |vm_compute; reflexivity|reflexivity].
Defined.

(** C2, as stated, fails: when every field of the batch is in the fetched
    schema the synchronisation succeeds without an alteration request, and
    the batch is resubmitted all the same. *)
Lemma sendRows_retries_without_alteration :
  SchemaFlexible
    (sender_Config (Samples.sender true
       (Samples.store Samples.metaComplete [Some Samples.unknownField]))) = true
  /\ Contains Samples.unknownField "no such field" = true
  /\ updateSchema Samples.mapOrder
       (Samples.store Samples.metaComplete [Some Samples.unknownField])
       Samples.statusRows 1%nat
     = (None, 1%nat, [Metadata])
  /\ sendRows Samples.mapOrder
       (Samples.sender true
          (Samples.store Samples.metaComplete [Some Samples.unknownField]))
       Samples.statusRows 0%nat
     = (None, 2%nat, retryTrace Samples.statusRows [Metadata])
  /\ updatesOf (retryTrace Samples.statusRows [Metadata]) = [].
Proof. repeat split; vm_compute; reflexivity. Qed.

(** ** More of the row builder *)

Lemma Contains_dot_cons c s :
  Contains (String c s) "." = Ascii.eqb c "." || Contains s ".".
Proof.
  change (Contains (String c s) ".")
    with (if match ascii_dec "." c with
             | left _ => String.prefix "" s
             | right _ => false
             end
          then true else Contains s ".").
  destruct (ascii_dec "." c) as [<-|Hne].
  - by destruct s.
  - destruct (Ascii.eqb_spec c ".") as [->|_]; [done|reflexivity].
Qed.

Lemma fieldName_Contains_dot (k : string) : Contains (fieldName k) "." = false.
Proof.
  unfold fieldName. induction k as [|c k IH]; [reflexivity|].
  cbn [Replace]. rewrite Contains_dot_cons, IH.
  by destruct (Ascii.eqb_spec c ".") as [->|Hne%Ascii.eqb_neq]; [|rewrite Hne].
Qed.

(** X1. A sanitised field name contains no '.', is as long as the key, and
    is the key itself exactly when the key has no '.'. *)
Theorem fieldName_no_dot (k : string) :
  Contains (fieldName k) "." = false
  /\ String.length (fieldName k) = String.length k
  /\ (fieldName k = k <-> Contains k "." = false).
Proof.
  unfold fieldName. induction k as [|c k (IHdot & IHlen & IHfix)].
  - repeat split.
  - cbn [Replace String.length]. rewrite !Contains_dot_cons.
    destruct (Ascii.eqb_spec c ".") as [->|Hne]; simpl.
    + split; [exact IHdot|]. split; [by rewrite IHlen|].
      split; [intros Heq; injection Heq as Hc; discriminate Hc|discriminate].
    + assert (Hc : Ascii.eqb c "." = false) by (by apply Ascii.eqb_neq).
      rewrite Hc. simpl. split; [exact IHdot|]. split; [by rewrite IHlen|].
      split.
      * intros Heq. injection Heq as Heq. by apply IHfix.
      * intros Hk. f_equal. by apply IHfix.
Qed.

(** X2. Writing an attribute of a recognized kind and reading the field
    back gives a Go value from which the attribute value is recovered; no
    other field of the row changes. *)
Theorem addKeyValue_round_trip k v (row : bigqueryrow) :
  recognized (pcommon.Type_ v) = true ->
  (exists x, addKeyValue k v row !! fieldName k = Some x /\ valueOf x = Some v)
  /\ (forall f, f <> fieldName k -> addKeyValue k v row !! f = row !! f)
  /\ dom (addKeyValue k v row) = {[fieldName k]} ∪ dom row.
Proof.
  intros Hv. unfold addKeyValue.
  destruct v; simpl in Hv; try discriminate Hv; simpl;
    (split; [eexists; split; [apply lookup_insert_eq|reflexivity]|]);
    (split; [intros f Hf; by apply lookup_insert_ne|apply dom_insert_L]).
Qed.

Lemma addKeyValue_round_trip_witness :
  exists x,
    addKeyValue "http.status" (pcommon.NewValueInt 200) ∅ !! "http_status" = Some x
    /\ valueOf x = Some (pcommon.NewValueInt 200).
Proof.
  exact (proj1 (addKeyValue_round_trip "http.status" (pcommon.NewValueInt 200) ∅
                  eq_refl)).
Defined.

Lemma foldl_addKeyValue_dom (attrs : pcommon.Map) (row : bigqueryrow) :
  dom (foldl (fun row kv => addKeyValue kv.1 kv.2 row) row attrs)
  = dom row ∪ list_to_set (writtenNames attrs).
Proof.
  revert row. induction attrs as [|[k v] attrs IH]; intros row; simpl.
  - set_solver.
  - rewrite IH. unfold writtenNames. simpl.
    destruct (recognized (pcommon.Type_ v)) eqn:Hv.
    + unfold addKeyValue.
      destruct v; simpl in Hv; try discriminate Hv; simpl;
        rewrite dom_insert_L; set_solver.
    + rewrite addKeyValue_unrecognized by exact Hv. reflexivity.
Qed.

Lemma writtenNames_no_dot attrs f :
  f ∈ writtenNames attrs -> Contains f "." = false.
Proof.
  unfold writtenNames. rewrite list_elem_of_omap.
  intros ([k v] & _ & Hf). simpl in Hf.
  destruct (recognized (pcommon.Type_ v)); [|discriminate].
  injection Hf as <-. apply fieldName_Contains_dot.
Qed.

(** X3. The fields of a span's row are "name" and the sanitised keys of the
    attributes of a recognized kind of its resource group and of the span;
    none of them contains a '.'. *)
Theorem spanRow_fields rattrs span :
  dom (spanRow rattrs span)
  = {["name"]} ∪ list_to_set (writtenNames rattrs)
      ∪ list_to_set (writtenNames (ptrace.Attributes span))
  /\ (forall f, is_Some (spanRow rattrs span !! f) -> Contains f "." = false).
Proof.
  assert (Hdom : dom (spanRow rattrs span)
                 = {["name"]} ∪ list_to_set (writtenNames rattrs)
                     ∪ list_to_set (writtenNames (ptrace.Attributes span))).
  { unfold spanRow. rewrite !Range_all, !foldl_addKeyValue_dom.
    by rewrite dom_singleton_L. }
  split; [exact Hdom|].
  intros f Hf%elem_of_dom. rewrite Hdom in Hf.
  apply elem_of_union in Hf as [[Hf|Hf]%elem_of_union|Hf].
  - apply elem_of_singleton in Hf as ->. reflexivity.
  - apply elem_of_list_to_set in Hf. by eapply writtenNames_no_dot.
  - apply elem_of_list_to_set in Hf. by eapply writtenNames_no_dot.
Qed.

(** The three loops, for any way of building the row of a span. *)
Lemma rows_loops (f : pcommon.Map -> ptrace.Span -> bigqueryrow)
    (td : ptrace.Traces) (rows : list bigqueryrow) :
  foldl (fun rows rspan =>
    foldl (fun rows sspan =>
      foldl (fun rows span => rows ++ [f (ptrace.Resource_Attributes rspan) span])
        rows (ptrace.Spans sspan))
      rows (ptrace.ScopeSpans_ rspan))
    rows td
  = rows ++ map (fun leaf => f leaf.1 leaf.2) (leaves td).
Proof.
  revert rows. induction td as [|rspan td IH]; intros rows; simpl.
  - by rewrite app_nil_r.
  - rewrite IH, map_app, app_assoc. f_equal.
    generalize (ptrace.ScopeSpans_ rspan). intros sspans. revert rows.
    induction sspans as [|sspan sspans IHs]; intros rows; simpl.
    + by rewrite app_nil_r.
    + rewrite IHs, map_app, app_assoc. f_equal.
      generalize (ptrace.Spans sspan). intros spans. revert rows.
      induction spans as [|span spans IHp]; intros rows; simpl.
      * by rewrite app_nil_r.
      * by rewrite IHp, <- app_assoc.
Qed.

Lemma leaves_app td1 td2 : leaves (td1 ++ td2) = leaves td1 ++ leaves td2.
Proof. unfold leaves. apply flat_map_app. Qed.

(** X4. The rows of two batches put together are the rows of the first
    followed by the rows of the second. *)
Theorem buildRows_app (td1 td2 : ptrace.Traces) :
  buildRows (td1 ++ td2) = buildRows td1 ++ buildRows td2.
Proof. by rewrite !buildRows_leaves, leaves_app, map_app. Qed.

Lemma leaves_mergeScopes td : leaves (mergeScopes <$> td) = leaves td.
Proof.
  unfold leaves. induction td as [|rspan td IH]; [reflexivity|].
  cbn [fmap list_fmap flat_map]. fold (@fmap list _ _ _ mergeScopes td).
  rewrite IH. f_equal. simpl. rewrite app_nil_r.
  induction (ptrace.ScopeSpans_ rspan) as [|sspan sspans IHs]; [reflexivity|].
  simpl. by rewrite map_app, IHs.
Qed.

(** X5. How the spans of a resource group are spread over scope groups does
    not show in the rows: the batch with every resource group's spans
    gathered in one scope group gives the same rows. *)
Theorem buildRows_ignores_scopes (td : ptrace.Traces) :
  buildRows (mergeScopes <$> td) = buildRows td.
Proof. by rewrite !buildRows_leaves, leaves_mergeScopes. Qed.

(** X6. A resource-level attribute of a recognized kind shows in the row of
    every span of its group, unless a later resource-level attribute or an
    attribute of the span is written under the same name. *)
Theorem resource_attribute_kept rattrs span pre k v post :
  rattrs = pre ++ (k, v) :: post ->
  recognized (pcommon.Type_ v) = true ->
  writesNothingAt (fieldName k) post ->
  writesNothingAt (fieldName k) (ptrace.Attributes span) ->
  spanRow rattrs span !! fieldName k = addKeyValue k v ∅ !! fieldName k
  /\ is_Some (spanRow rattrs span !! fieldName k).
Proof.
  intros -> Hv Hpost Hspan.
  assert (Heq : spanRow (pre ++ (k, v) :: post) span !! fieldName k
                = addKeyValue k v ∅ !! fieldName k).
  { unfold spanRow. rewrite !Range_all.
    rewrite foldl_addKeyValue_untouched by exact Hspan.
    rewrite foldl_app. simpl.
    rewrite foldl_addKeyValue_untouched by exact Hpost.
    by apply addKeyValue_written. }
  split; [exact Heq|]. rewrite Heq. by apply addKeyValue_written_is_Some.
Qed.

Lemma resource_attribute_kept_witness :
  spanRow Samples.testResource Samples.testSpan2 !! "service_name"
  = Some (GoString "service1").
Proof.
  refine (eq_trans
    (proj1 (resource_attribute_kept Samples.testResource Samples.testSpan2 []
              "service.name" (pcommon.NewValueStr "service1")
              [("resource.id", pcommon.NewValueInt 1001)] eq_refl eq_refl _ _)) _).
  - intros k v Hin Hk.
    repeat (apply elem_of_cons in Hin as [Heq|Hin];
            [injection Heq as -> ->; vm_compute in Hk; discriminate Hk|]).
    by apply elem_of_nil in Hin.
  - intros k v Hin Hk. simpl in Hin.
    repeat (apply elem_of_cons in Hin as [Heq|Hin];
            [injection Heq as -> ->; vm_compute in Hk; discriminate Hk|]).
    by apply elem_of_nil in Hin.
  - vm_compute. reflexivity.
Defined.

Lemma foldl_addKeyValue_union (attrs : pcommon.Map) (row extra : bigqueryrow) :
  foldl (fun row kv => addKeyValue kv.1 kv.2 row) (row ∪ extra) attrs
  = foldl (fun row kv => addKeyValue kv.1 kv.2 row) row attrs ∪ extra.
Proof.
  revert row. induction attrs as [|[k v] attrs IH]; intros row; simpl;
    [reflexivity|].
  rewrite <- IH. f_equal. unfold addKeyValue.
  destruct (pcommon.Type_ v); simpl; try reflexivity; by rewrite insert_union_l.
Qed.

(** X7. The older row builder gives the rows of [buildRows] with one more
    field, "type", holding "trace" unless an attribute is written under
    that name. *)
Theorem buildTraceRows_adds_type (td : ptrace.Traces) :
  Legacy.buildTraceRows td
  = (fun row : bigqueryrow => row ∪ {[ "type" := GoString "trace" ]})
      <$> buildRows td.
Proof.
  unfold Legacy.buildTraceRows. rewrite rows_loops, buildRows_leaves. simpl.
  induction (leaves td) as [|[rattrs span] l IH]; [reflexivity|].
  cbn [map fmap list_fmap]. f_equal; [|exact IH]. simpl.
  unfold Legacy.spanRow, spanRow. rewrite !Range_all.
  rewrite insert_union_singleton_r by reflexivity.
  by rewrite !foldl_addKeyValue_union.
Qed.

(** ** More of the schema synchroniser *)

(** X8. The outcomes of a synchronisation. It fails without touching the
    table when the schema cannot be fetched or has a field of a refused type;
    it succeeds without touching the table when the batch has no new field;
    otherwise its result, and the world it leaves, are those of the store's
    answer to the one alteration request. *)
Theorem updateSchema_outcome {W}
    (rangeOrder : nat -> bigqueryrow -> list (string * goValue))
    (table : bigquery.Table W) (rows : list bigqueryrow) (w w2 : W) err t :
  RangeOrders rangeOrder ->
  updateSchema rangeOrder table rows w = (err, w2, t) ->
  (exists e,
     bigquery.Metadata_ table w = (inr e, w2)
     /\ err = Some ("table metadata: " +:+ e) /\ t = [Metadata])
  \/ (exists meta field,
        bigquery.Metadata_ table w = (inl meta, w2)
        /\ field ∈ bigquery.Schema_ meta
        /\ knownFieldType (bigquery.Type_ field) = None
        /\ err = Some (refusedType field) /\ t = [Metadata])
  \/ (exists meta,
        bigquery.Metadata_ table w = (inl meta, w2)
        /\ Forall permitted (bigquery.Schema_ meta)
        /\ ~ NewField rows (bigquery.Schema_ meta)
        /\ err = None /\ updatesOf t = [])
  \/ (exists meta w1 new,
        bigquery.Metadata_ table w = (inl meta, w1)
        /\ Forall permitted (bigquery.Schema_ meta)
        /\ NewField rows (bigquery.Schema_ meta)
        /\ updatesOf t = [(bigquery.Schema_ meta ++ new, bigquery.ETag meta)]
        /\ (err, w2)
           = (updateResult
                (bigquery.Update_ table
                   {| bigquery.Schema_update := bigquery.Schema_ meta ++ new |}
                   (bigquery.ETag meta) w1).1,
              (bigquery.Update_ table
                 {| bigquery.Schema_update := bigquery.Schema_ meta ++ new |}
                 (bigquery.ETag meta) w1).2)).
Proof.
  intros Hperm Hrun.
  destruct (bigquery.Metadata_ table w) as [[meta|e] w1] eqn:Hmeta.
  - destruct (knownLoop (bigquery.Schema_ meta) ∅ ∅) as [known|e0] eqn:Hknown.
    + pose proof (knownLoop_accepts _ _ _ _ Hknown) as Hall.
      rewrite (updateSchema_run rangeOrder table rows w meta w1 known Hmeta Hknown)
        in Hrun.
      pose proof (staged_nil_NewField rangeOrder rows (bigquery.Schema_ meta) Hperm)
        as Hnil.
      destruct (staged _ (entriesOf rangeOrder rows)) as [|field new] eqn:Hnew.
      * injection Hrun as <- <- <-. right. right. left. exists meta.
        destruct (trace_without_update
                    (loopLines (entriesOf rangeOrder rows) (initialState meta known)))
          as (Hu & _).
        rewrite Hu. apply proj1 in Hnil. specialize (Hnil eq_refl). done.
      * injection Hrun as <- <- <-. right. right. right.
        exists meta, w1, (field :: new).
        match goal with
        | |- context [Metadata :: (Printf <$> ?l) ++ [Printf (UpdatingSchemaCount ?n); Update ?tm ?e]] =>
            destruct (trace_with_update l n tm e) as (Hu & _)
        end.
        rewrite Hu.
        pose proof (staged_cons_NewField rangeOrder rows _ field new Hperm Hnew).
        done.
    + rewrite (updateSchema_schema_rejected rangeOrder table rows w meta w1 e0
                 Hmeta Hknown) in Hrun.
      injection Hrun as <- <- <-. right. left.
      destruct (knownLoop_refuses _ _ _ _ Hknown) as (field & Hin & Hty & ->).
      exists meta, field. done.
  - rewrite (updateSchema_fetch_failed rangeOrder table rows w e w1 Hmeta) in Hrun.
    injection Hrun as <- <- <-. left. by exists e.
Qed.

Lemma updateSchema_outcome_witness :
  (updateSchema Samples.mapOrder (Samples.refusingStore Samples.metaNameOnly)
     Samples.statusRows 0%nat).1.1
  = Some "unable to update schema: precondition failed".
Proof.
  destruct (updateSchema Samples.mapOrder
              (Samples.refusingStore Samples.metaNameOnly) Samples.statusRows
              0%nat) as [[err w2] t] eqn:Hrun.
  destruct (updateSchema_outcome Samples.mapOrder
              (Samples.refusingStore Samples.metaNameOnly) Samples.statusRows
              0%nat w2 err t mapOrder_RangeOrders Hrun)
    as [(e & Hm & _)|[(meta & f & Hm & _ & _ & He & _)
       |[(meta & Hm & _ & _ & He & _)|(meta & w1 & new & Hm & _ & _ & _ & Hres)]]].
  - discriminate Hm.
  - vm_compute in Hrun. injection Hrun as <- _ _. discriminate He.
  - vm_compute in Hrun. injection Hrun as <- _ _. discriminate He.
  - simpl in Hres. injection Hres as -> _. reflexivity.
Defined.

(** X9. The events of a synchronisation, in order: the schema fetch, then
    printed lines only, then the alteration request if there is one. So it
    never inserts, never sleeps, fetches once and alters at most once. *)
Theorem updateSchema_events {W}
    (rangeOrder : nat -> bigqueryrow -> list (string * goValue))
    (table : bigquery.Table W) (rows : list bigqueryrow) (w : W) :
  exists lines request,
    (updateSchema rangeOrder table rows w).2
    = Metadata :: (Printf <$> lines) ++ request
    /\ (request = [] \/ exists tm etag, request = [Update tm etag]).
Proof.
  destruct (bigquery.Metadata_ table w) as [[meta|e] w1] eqn:Hmeta.
  - destruct (knownLoop (bigquery.Schema_ meta) ∅ ∅) as [known|e0] eqn:Hknown.
    + rewrite (updateSchema_run rangeOrder table rows w meta w1 known Hmeta Hknown).
      destruct (staged _ (entriesOf rangeOrder rows)) as [|field new]; cbn [snd].
      * eexists _, []. rewrite app_nil_r. split; [reflexivity|by left].
      * match goal with
        | |- context [Metadata :: (Printf <$> ?l) ++ [Printf ?c; Update ?tm ?e]] =>
            exists (l ++ [c]), [Update tm e]
        end.
        split; [|right; eauto]. by rewrite fmap_app, <- app_assoc.
    + rewrite (updateSchema_schema_rejected rangeOrder table rows w meta w1 e0
                 Hmeta Hknown).
      exists [], []. split; [reflexivity|by left].
  - rewrite (updateSchema_fetch_failed rangeOrder table rows w e w1 Hmeta).
    exists [], []. split; [reflexivity|by left].
Qed.

Lemma staged_nullable seen entries :
  Forall (fun f => bigquery.Required f = false) (staged seen entries).
Proof.
  revert seen. induction entries as [|[key value] entries IH]; intros seen; simpl.
  - constructor.
  - destruct (decide (key ∈ seen)); [apply IH|]. constructor; [reflexivity|apply IH].
Qed.

Lemma newFields_size entries st seen :
  Seen st seen -> newFields st = ∅ ->
  size (newFields (loopState entries st)) = length (staged seen entries).
Proof.
  intros HS Hempty.
  destruct (loopState_staged entries st seen HS) as [_ Hdom].
  rewrite Hempty, dom_empty_L, (left_id_L ∅ (∪)) in Hdom.
  rewrite <- size_dom, Hdom, size_list_to_set by apply staged_NoDup.
  unfold fieldNames. by rewrite length_fmap.
Qed.

(** X10. What an alteration request carries: the version token fetched with
    the schema, and, after the fetched fields, at least one new definition,
    each of them nullable (not required); the number of new definitions is
    the count the synchroniser prints; and no name is defined twice when the
    fetched names are distinct. *)
Theorem updateSchema_request_fields {W}
    (rangeOrder : nat -> bigqueryrow -> list (string * goValue))
    (table : bigquery.Table W) (rows : list bigqueryrow)
    (w w1 w2 : W) meta err t schema etag :
  bigquery.Metadata_ table w = (inl meta, w1) ->
  updateSchema rangeOrder table rows w = (err, w2, t) ->
  (schema, etag) ∈ updatesOf t ->
  etag = bigquery.ETag meta
  /\ exists new,
       schema = bigquery.Schema_ meta ++ new
       /\ new <> []
       /\ Forall (fun f => bigquery.Required f = false) new
       /\ UpdatingSchemaCount (length new) ∈ linesOf t
       /\ (NoDup (fieldNames (bigquery.Schema_ meta)) -> NoDup (fieldNames schema)).
Proof.
  intros Hmeta Hrun Hin.
  destruct (knownLoop (bigquery.Schema_ meta) ∅ ∅) as [known|e0] eqn:Hknown;
    cycle 1.
  { rewrite (updateSchema_schema_rejected rangeOrder table rows w meta w1 e0
               Hmeta Hknown) in Hrun.
    injection Hrun as <- <- <-. by apply elem_of_nil in Hin. }
  rewrite (updateSchema_run rangeOrder table rows w meta w1 known Hmeta Hknown)
    in Hrun.
  pose proof (newFields_size (entriesOf rangeOrder rows) _ _
                (initialState_Seen meta known Hknown) eq_refl) as Hsize.
  pose proof (staged_nullable (list_to_set (fieldNames (bigquery.Schema_ meta)))
                (entriesOf rangeOrder rows)) as Hnull.
  pose proof (staged_NoDup (list_to_set (fieldNames (bigquery.Schema_ meta)))
                (entriesOf rangeOrder rows)) as Hnd.
  pose proof (fun k => staged_names (list_to_set (fieldNames (bigquery.Schema_ meta)))
                         (entriesOf rangeOrder rows) k) as Hnames.
  destruct (staged _ (entriesOf rangeOrder rows)) as [|field new] eqn:Hnew.
  - injection Hrun as <- <- <-.
    destruct (trace_without_update
                (loopLines (entriesOf rangeOrder rows) (initialState meta known)))
      as (Hu & _).
    rewrite Hu in Hin. by apply elem_of_nil in Hin.
  - injection Hrun as <- <- <-.
    match type of Hin with
    | context [Metadata :: (Printf <$> ?l) ++ [Printf (UpdatingSchemaCount ?n); Update ?tm ?e]] =>
        destruct (trace_with_update l n tm e) as (Hu & _ & _ & _ & Hl)
    end.
    rewrite Hu in Hin. apply list_elem_of_singleton in Hin.
    injection Hin as -> ->. split; [reflexivity|].
    exists (field :: new). rewrite Hl, Hsize.
    split; [reflexivity|]. split; [discriminate|]. split; [exact Hnull|].
    split; [apply elem_of_app; right; left|].
    intros Hschema. unfold fieldNames. rewrite fmap_app.
    apply NoDup_app. split; [exact Hschema|]. split; [|exact Hnd].
    intros k Hk Hk'. apply Hnames in Hk' as [Hnot _].
    apply Hnot. by apply elem_of_list_to_set.
Qed.

Lemma updateSchema_request_fields_witness :
  exists new,
    [Samples.field "name" bigquery.StringFieldType;
     Samples.field "http_status" bigquery.NumericFieldType]
    = bigquery.Schema_ Samples.metaNameOnly ++ new
    /\ Forall (fun f => bigquery.Required f = false) new.
Proof.
  destruct (updateSchema Samples.mapOrder (Samples.store Samples.metaNameOnly [])
              Samples.statusRows 0%nat) as [[err w2] t] eqn:Hrun.
  destruct (updateSchema_request_fields Samples.mapOrder
              (Samples.store Samples.metaNameOnly []) Samples.statusRows
              0%nat 0%nat w2 Samples.metaNameOnly err t
              [Samples.field "name" bigquery.StringFieldType;
               Samples.field "http_status" bigquery.NumericFieldType]
              "etag-1" eq_refl Hrun)
    as (_ & new & Hs & _ & Hnull & _).
  - vm_compute in Hrun. injection Hrun as _ _ <-. vm_compute. left.
  - exists new. split; [exact Hs|exact Hnull].
Defined.

(** X11. The type of a new field is inferred from the first row of the
    batch that has the field: the request defines the field once, with the
    type of that row's value, whatever later rows hold under the name. *)
Theorem updateSchema_first_value_types_field {W}
    (rangeOrder : nat -> bigqueryrow -> list (string * goValue))
    (table : bigquery.Table W) (pre post : list bigqueryrow) (row : bigqueryrow)
    (w w1 w2 : W) meta err t key value :
  RangeOrders rangeOrder ->
  bigquery.Metadata_ table w = (inl meta, w1) ->
  Forall permitted (bigquery.Schema_ meta) ->
  updateSchema rangeOrder table (pre ++ row :: post) w = (err, w2, t) ->
  (forall r : bigqueryrow, r ∈ pre -> r !! key = None) ->
  row !! key = Some value ->
  key ∉ fieldNames (bigquery.Schema_ meta) ->
  exists new,
    updatesOf t = [(bigquery.Schema_ meta ++ new, bigquery.ETag meta)]
    /\ stagedField key value ∈ new
    /\ forall f, f ∈ new -> bigquery.Name f = key -> f = stagedField key value.
Proof.
  intros Hperm Hmeta Hall Hrun Hpre Hrow Hnew.
  destruct (updateSchema_requests rangeOrder table _ w w1 w2 meta err t
              Hmeta Hall Hrun) as [_ Hreq].
  pose proof (staged_NoDup (list_to_set (fieldNames (bigquery.Schema_ meta)))
                (entriesOf rangeOrder (pre ++ row :: post))) as Hnd.
  assert (Hin : stagedField key value
                  ∈ staged (list_to_set (fieldNames (bigquery.Schema_ meta)))
                      (entriesOf rangeOrder (pre ++ row :: post))).
  { rewrite entriesOf_app. unfold entriesOf at 2. rewrite imap_cons. simpl.
    assert (Hview : (key, value) ∈ rangeOrder (length pre + 0)%nat row).
    { rewrite (Hperm _ row). by apply elem_of_map_to_list. }
    apply list_elem_of_split in Hview as (v1 & v2 & Hview).
    assert (Hv1 : key ∉ v1.*1).
    { pose proof (NoDup_fst_map_to_list row) as Hkeys.
      rewrite <- (Hperm (length pre + 0)%nat row), Hview in Hkeys.
      rewrite fmap_app, fmap_cons in Hkeys. simpl in Hkeys.
      apply NoDup_app in Hkeys as (_ & Hdisj & _).
      intros Hk. apply (Hdisj key Hk). left. }
    rewrite Hview, <- !app_assoc, app_assoc. simpl.
    apply staged_first.
    - by rewrite elem_of_list_to_set.
    - rewrite fmap_app. intros [Hk|Hk]%elem_of_app; [|by apply Hv1].
      apply (entriesOf_keys rangeOrder pre key Hperm) in Hk
        as (i & r & Hr & [x Hx]).
      rewrite (Hpre r) in Hx; [discriminate|]. by eapply list_elem_of_lookup_2. }
  destruct (staged _ (entriesOf rangeOrder (pre ++ row :: post)))
    as [|field new]; [by apply elem_of_nil in Hin|].
  exists (field :: new). split; [exact Hreq|]. split; [exact Hin|].
  intros f Hf Hname. by apply (NoDup_names_eq (field :: new)).
Qed.

Lemma updateSchema_first_value_types_field_witness :
  exists new,
    updatesOf (updateSchema Samples.mapOrder
                 (Samples.store Samples.metaNameOnly []) Samples.mixedRows
                 0%nat).2
    = [(bigquery.Schema_ Samples.metaNameOnly ++ new, "etag-1")]
    /\ Samples.field "http_status" bigquery.StringFieldType ∈ new.
Proof.
  destruct (updateSchema Samples.mapOrder (Samples.store Samples.metaNameOnly [])
              Samples.mixedRows 0%nat) as [[err w2] t] eqn:Hrun.
  destruct (updateSchema_first_value_types_field Samples.mapOrder
              (Samples.store Samples.metaNameOnly [])
              [ {[ "name" := GoString "span1" ]} ]
              [ <["http_status" := GoInt64 200]> {[ "name" := GoString "span3" ]} ]
              (<["http_status" := GoString "200"]> {[ "name" := GoString "span2" ]})
              0%nat 0%nat w2 Samples.metaNameOnly err t
              "http_status" (GoString "200")
              mapOrder_RangeOrders eq_refl)
    as (new & Hu & Hin & _).
  - repeat constructor. by exists "string".
  - exact Hrun.
  - intros r Hr. apply list_elem_of_singleton in Hr as ->. reflexivity.
  - reflexivity.
  - intros Hin. repeat (apply elem_of_cons in Hin as [Hin|Hin]; [discriminate|]).
    by apply elem_of_nil in Hin.
  - exists new. split; [exact Hu|exact Hin].
Defined.

(** X12. Synchronising again is a no-op: against the schema an alteration
    request carried, the batch has no new field, so a second synchronisation
    that fetches that schema, its types being permitted, succeeds without a
    request. *)
Theorem updateSchema_again_is_noop {W V}
    (rangeOrder : nat -> bigqueryrow -> list (string * goValue))
    (table : bigquery.Table W) (table' : bigquery.Table V)
    (rows : list bigqueryrow) (w w1 w2 : W) (v v1 : V)
    meta meta' err t schema etag :
  RangeOrders rangeOrder ->
  bigquery.Metadata_ table w = (inl meta, w1) ->
  updateSchema rangeOrder table rows w = (err, w2, t) ->
  (schema, etag) ∈ updatesOf t ->
  bigquery.Metadata_ table' v = (inl meta', v1) ->
  bigquery.Schema_ meta' = schema ->
  Forall permitted schema ->
  ~ NewField rows schema
  /\ (updateSchema rangeOrder table' rows v).1 = (None, v1)
  /\ updatesOf (updateSchema rangeOrder table' rows v).2 = [].
Proof.
  intros Hperm Hmeta Hrun Hin Hmeta' Hschema Hall'.
  assert (Hno : ~ NewField rows schema).
  { intros (key & Hkey & Habsent).
    destruct (knownLoop (bigquery.Schema_ meta) ∅ ∅) as [known|e0] eqn:Hknown;
      cycle 1.
    { rewrite (updateSchema_schema_rejected rangeOrder table rows w meta w1 e0
                 Hmeta Hknown) in Hrun.
      injection Hrun as <- <- <-. by apply elem_of_nil in Hin. }
    destruct (updateSchema_requests rangeOrder table rows w w1 w2 meta err t
                Hmeta (knownLoop_accepts _ _ _ _ Hknown) Hrun) as [_ Hreq].
    pose proof (staged_batch_names rangeOrder rows (bigquery.Schema_ meta) key
                  Hperm) as Hnames.
    destruct (staged _ (entriesOf rangeOrder rows)) as [|field new].
    - destruct Hreq as (Hu & _). rewrite Hu in Hin. by apply elem_of_nil in Hin.
    - rewrite Hreq in Hin. apply list_elem_of_singleton in Hin.
      injection Hin as -> ->. apply Habsent.
      unfold fieldNames in *. rewrite fmap_app. apply elem_of_app.
      destruct (decide (key ∈ bigquery.Name <$> bigquery.Schema_ meta))
        as [|Hnot]; [by left|].
      right. apply Hnames. done. }
  split; [exact Hno|]. subst schema.
  destruct (updateSchema rangeOrder table' rows v) as [[err' v2] t'] eqn:Hrun'.
  destruct (updateSchema_requests rangeOrder table' rows v v1 v2 meta' err' t'
              Hmeta' Hall' Hrun') as [_ Hreq].
  apply (staged_nil_NewField rangeOrder rows _ Hperm) in Hno.
  rewrite Hno in Hreq. destruct Hreq as (Hu & -> & ->). done.
Qed.

Lemma updateSchema_again_is_noop_witness :
  (updateSchema Samples.mapOrder (Samples.store Samples.metaComplete [])
     Samples.statusRows 7%nat).1
  = (None, 7%nat).
Proof.
  destruct (updateSchema Samples.mapOrder (Samples.store Samples.metaNameOnly [])
              Samples.statusRows 0%nat) as [[err w2] t] eqn:Hrun.
  refine (proj1 (proj2 (updateSchema_again_is_noop Samples.mapOrder
            (Samples.store Samples.metaNameOnly [])
            (Samples.store Samples.metaComplete [])
            Samples.statusRows 0%nat 0%nat w2 7%nat 7%nat
            Samples.metaNameOnly Samples.metaComplete err t
            (bigquery.Schema_ Samples.metaComplete) "etag-1"
            mapOrder_RangeOrders eq_refl Hrun _ eq_refl eq_refl _))).
  - vm_compute in Hrun. injection Hrun as _ _ <-. vm_compute. left.
  - repeat constructor; [by exists "string"|by exists "int64"].
Defined.

(** ** More of the batch inserter *)

Lemma sendRows_single_insert {W}
    (rangeOrder : nat -> bigqueryrow -> list (string * goValue))
    (sender : bigquerySender W) (rows : list bigqueryrow) (w w1 : W) r :
  bigquery.Put_ (tableOf sender) rows w = (r, w1) ->
  isUnknownField r = false ->
  sendRows rangeOrder sender rows w = (r, w1, [Put rows]).
Proof.
  intros Hput Hr. unfold sendRows, bind, Inserter_Put. fold (tableOf sender).
  rewrite Hput. destruct r as [e|]; [|reflexivity].
  simpl in Hr. by rewrite Hr.
Qed.

Lemma sendRows_fetches_on_unknown_field {W}
    (rangeOrder : nat -> bigqueryrow -> list (string * goValue))
    (sender : bigquerySender W) (rows : list bigqueryrow) (w w1 : W) e :
  SchemaFlexible (sender_Config sender) = true ->
  bigquery.Put_ (tableOf sender) rows w = (Some e, w1) ->
  Contains e "no such field" = true ->
  fetchesOf (sendRows rangeOrder sender rows w).2 = 1%nat.
Proof.
  intros Hflag Hput Hc.
  destruct (updateSchema_trace_shape rangeOrder (tableOf sender) rows w1)
    as (Hf & _).
  unfold sendRows, bind, Inserter_Put. fold (tableOf sender).
  rewrite Hput, Hc, Hflag.
  destruct (updateSchema rangeOrder (tableOf sender) rows w1)
    as [[[e'|] w2] ts]; simpl in Hf.
  - simpl. rewrite app_nil_r. exact Hf.
  - unfold fmt_Printf, time_Sleep, emit.
    destruct (bigquery.Put_ (tableOf sender) rows w2) as [r' w3]. cbn [snd].
    change (fetchesOf ([Put rows] ++ ?t)) with (fetchesOf t).
    by rewrite fetchesOf_app, Hf.
Qed.

(** X13. [sendRows] does nothing but the one insert, and returns its
    result, exactly when the insert succeeds, or fails with an error whose
    text does not contain "no such field", or the flag is off. *)
Theorem sendRows_returns_other_results {W}
    (rangeOrder : nat -> bigqueryrow -> list (string * goValue))
    (sender : bigquerySender W) (rows : list bigqueryrow) (w w1 : W) r :
  bigquery.Put_ (tableOf sender) rows w = (r, w1) ->
  sendRows rangeOrder sender rows w = (r, w1, [Put rows])
  <-> isUnknownField r && SchemaFlexible (sender_Config sender) = false.
Proof.
  intros Hput. destruct (isUnknownField r) eqn:Hr; cycle 1.
  { split; [done|intros _]. by apply sendRows_single_insert. }
  destruct r as [e|]; [|discriminate Hr]. simpl in Hr.
  destruct (SchemaFlexible (sender_Config sender)) eqn:Hflag; simpl.
  - split; [|discriminate]. intros Hrun.
    pose proof (sendRows_fetches_on_unknown_field rangeOrder sender rows w w1 e
                  Hflag Hput Hr) as Hf.
    rewrite Hrun in Hf. discriminate Hf.
  - split; [done|intros _]. unfold sendRows, bind, Inserter_Put.
    fold (tableOf sender). by rewrite Hput, Hr, Hflag.
Qed.

Lemma sendRows_returns_other_results_witness :
  sendRows Samples.mapOrder
    (Samples.sender true
       (Samples.store Samples.metaNameOnly [Some "quota exceeded"]))
    Samples.statusRows 0%nat
  = (Some "quota exceeded", 1%nat, [Put Samples.statusRows]).
Proof.
  apply (sendRows_returns_other_results Samples.mapOrder
           (Samples.sender true
              (Samples.store Samples.metaNameOnly [Some "quota exceeded"]))
           Samples.statusRows 0%nat 1%nat (Some "quota exceeded"));
    reflexivity.
Defined.

(** X14. When the synchronisation fails, [sendRows] returns its error at
    once: it neither waits nor submits the batch again. *)
Theorem sendRows_stops_on_failed_sync {W}
    (rangeOrder : nat -> bigqueryrow -> list (string * goValue))
    (sender : bigquerySender W) (rows : list bigqueryrow)
    (w w1 w2 : W) e e' ts :
  SchemaFlexible (sender_Config sender) = true ->
  bigquery.Put_ (tableOf sender) rows w = (Some e, w1) ->
  Contains e "no such field" = true ->
  updateSchema rangeOrder (tableOf sender) rows w1 = (Some e', w2, ts) ->
  sendRows rangeOrder sender rows w = (Some e', w2, Put rows :: ts)
  /\ putsOf (Put rows :: ts) = [rows]
  /\ sleepsOf (Put rows :: ts) = [].
Proof.
  intros Hflag Hput Hunknown Hsync.
  destruct (updateSchema_trace_shape rangeOrder (tableOf sender) rows w1)
    as (_ & Hp & Hs & _).
  rewrite Hsync in Hp, Hs. simpl in Hp, Hs.
  split; [|split].
  - unfold sendRows, bind, Inserter_Put. fold (tableOf sender).
    rewrite Hput, Hunknown, Hflag, Hsync. simpl. by rewrite app_nil_r.
  - change (putsOf (Put rows :: ts)) with (rows :: putsOf ts). by rewrite Hp.
  - exact Hs.
Qed.

Lemma sendRows_stops_on_failed_sync_witness :
  sendRows Samples.mapOrder
    (Samples.sender true (Samples.brokenStore [Some Samples.unknownField]))
    Samples.statusRows 0%nat
  = (Some "table metadata: notFound: table spattex", 1%nat,
     [Put Samples.statusRows; Metadata]).
Proof.
  apply (sendRows_stops_on_failed_sync Samples.mapOrder
           (Samples.sender true (Samples.brokenStore [Some Samples.unknownField]))
           Samples.statusRows 0%nat 1%nat 1%nat Samples.unknownField);
    reflexivity.
Defined.

(** X15. Every run of [sendRows] submits the batch once or twice, and twice
    exactly when it has waited; it fetches the schema at most once, alters
    it at most once, and waits at most once, for sixty seconds, which is
    less than the timeout of [TunedTimeoutSettings]. With the flag off it
    only inserts. *)
Theorem sendRows_bounded {W}
    (rangeOrder : nat -> bigqueryrow -> list (string * goValue))
    (sender : bigquerySender W) (rows : list bigqueryrow) (w : W) :
  (putsOf (sendRows rangeOrder sender rows w).2 = [rows]
   /\ sleepsOf (sendRows rangeOrder sender rows w).2 = []
   \/ putsOf (sendRows rangeOrder sender rows w).2 = [rows; rows]
      /\ sleepsOf (sendRows rangeOrder sender rows w).2 = [60 * Second]
      /\ fetchesOf (sendRows rangeOrder sender rows w).2 = 1%nat)
  /\ (fetchesOf (sendRows rangeOrder sender rows w).2 <= 1)%nat
  /\ (length (updatesOf (sendRows rangeOrder sender rows w).2) <= 1)%nat
  /\ (SchemaFlexible (sender_Config sender) = false ->
      (sendRows rangeOrder sender rows w).2 = [Put rows])
  /\ 60 * Second < exporterhelper.Timeout TunedTimeoutSettings.
Proof.
  assert (Htimeout : 60 * Second < exporterhelper.Timeout TunedTimeoutSettings)
    by reflexivity.
  destruct (bigquery.Put_ (tableOf sender) rows w) as [r w1] eqn:Hput.
  destruct (isUnknownField r) eqn:Hr; cycle 1.
  { rewrite (sendRows_single_insert rangeOrder sender rows w w1 r Hput Hr).
    cbn [snd]. split; [by left|].
    repeat split; try done; unfold fetchesOf, updatesOf; simpl; lia. }
  destruct r as [e|]; [|discriminate Hr]. simpl in Hr.
  destruct (SchemaFlexible (sender_Config sender)) eqn:Hflag; cycle 1.
  { assert (Hrun : sendRows rangeOrder sender rows w = (Some e, w1, [Put rows])).
    { unfold sendRows, bind, Inserter_Put. fold (tableOf sender).
      by rewrite Hput, Hr, Hflag. }
    rewrite Hrun. cbn [snd]. split; [by left|].
    repeat split; try done; unfold fetchesOf, updatesOf; simpl; lia. }
  destruct (updateSchema_trace_shape rangeOrder (tableOf sender) rows w1)
    as (Hf & Hp & Hs & Hu).
  destruct (updateSchema rangeOrder (tableOf sender) rows w1)
    as [[[e'|] w2] ts] eqn:Hsync; simpl in Hf, Hp, Hs, Hu.
  - assert (Hrun : sendRows rangeOrder sender rows w = (Some e', w2, Put rows :: ts)).
    { unfold sendRows, bind, Inserter_Put. fold (tableOf sender).
      rewrite Hput, Hr, Hflag, Hsync. simpl. by rewrite app_nil_r. }
    rewrite Hrun. cbn [snd].
    change (putsOf (Put rows :: ts)) with (rows :: putsOf ts).
    change (sleepsOf (Put rows :: ts)) with (sleepsOf ts).
    change (fetchesOf (Put rows :: ts)) with (fetchesOf ts).
    change (updatesOf (Put rows :: ts)) with (updatesOf ts).
    rewrite Hp, Hs, Hf. split; [by left|].
    repeat split; try done; try lia.
  - destruct (bigquery.Put_ (tableOf sender) rows w2) as [r' w3] eqn:Hretry.
    assert (Hrun : sendRows rangeOrder sender rows w = (r', w3, retryTrace rows ts)).
    { unfold sendRows, bind, Inserter_Put. fold (tableOf sender).
      rewrite Hput, Hr, Hflag, Hsync. unfold fmt_Printf, time_Sleep, emit.
      by rewrite Hretry. }
    rewrite Hrun. cbn [snd]. unfold retryTrace.
    change (putsOf (Put rows :: ?t)) with (rows :: putsOf t).
    change (sleepsOf (Put rows :: ?t)) with (sleepsOf t).
    change (fetchesOf (Put rows :: ?t)) with (fetchesOf t).
    change (updatesOf (Put rows :: ?t)) with (updatesOf t).
    rewrite putsOf_app, sleepsOf_app, fetchesOf_app, updatesOf_app, Hp, Hs, Hf.
    simpl. rewrite app_nil_r. split; [by right|].
    repeat split; try done; try lia.
Qed.

Lemma prefix_spec (sub s : string) :
  String.prefix sub s = true <-> exists post, s = sub +:+ post.
Proof.
  revert s. induction sub as [|a sub IH]; intros s.
  - simpl. split; [intros _; by exists s|by destruct s].
  - destruct s as [|b s]; simpl.
    + split; [discriminate|intros [post Hpost]; discriminate Hpost].
    + destruct (ascii_dec a b) as [->|Hne].
      * rewrite IH. split; intros [post Hpost]; exists post; [by rewrite Hpost|].
        by injection Hpost.
      * split; [discriminate|]. intros [post Hpost]. injection Hpost as Hab _.
        by symmetry in Hab.
Qed.

Lemma Contains_spec (s sub : string) :
  Contains s sub = true <-> exists pre post, s = pre +:+ sub +:+ post.
Proof.
  induction s as [|c s IH].
  - cbn [Contains]. destruct (String.prefix sub "") eqn:Hp.
    + split; [intros _|done]. apply prefix_spec in Hp as [post Hpost].
      by exists "", post.
    + split; [discriminate|]. intros (pre & post & Heq).
      destruct pre; [|discriminate Heq].
      assert (String.prefix sub "" = true) by (apply prefix_spec; eauto).
      congruence.
  - cbn [Contains]. destruct (String.prefix sub (String c s)) eqn:Hp.
    + split; [intros _|done]. apply prefix_spec in Hp as [post Hpost].
      by exists "", post.
    + rewrite IH. split.
      * intros (pre & post & ->). by exists (String c pre), post.
      * intros (pre & post & Heq). destruct pre as [|c' pre].
        -- assert (String.prefix sub (String c s) = true)
             by (apply prefix_spec; eauto).
           congruence.
        -- injection Heq as _ ->. eauto.
Qed.

(** X16. With the flag on, a failed insert leads to a schema fetch exactly
    when "no such field" occurs somewhere in the text of its error. *)
Theorem sendRows_syncs_iff_text_matches {W}
    (rangeOrder : nat -> bigqueryrow -> list (string * goValue))
    (sender : bigquerySender W) (rows : list bigqueryrow) (w w1 : W) e :
  SchemaFlexible (sender_Config sender) = true ->
  bigquery.Put_ (tableOf sender) rows w = (Some e, w1) ->
  fetchesOf (sendRows rangeOrder sender rows w).2 = 1%nat
  <-> exists pre post, e = pre +:+ "no such field" +:+ post.
Proof.
  intros Hflag Hput. rewrite <- Contains_spec.
  destruct (Contains e "no such field") eqn:Hc.
  - split; [done|intros _]. by eapply sendRows_fetches_on_unknown_field.
  - rewrite (sendRows_single_insert rangeOrder sender rows w w1 (Some e) Hput Hc).
    simpl. split; discriminate.
Qed.

Lemma sendRows_syncs_iff_text_matches_witness :
  fetchesOf (sendRows Samples.mapOrder
               (Samples.sender true
                  (Samples.store Samples.metaNameOnly [Some Samples.unknownField]))
               Samples.statusRows 0%nat).2 = 1%nat.
Proof.
  apply (sendRows_syncs_iff_text_matches Samples.mapOrder
           (Samples.sender true
              (Samples.store Samples.metaNameOnly [Some Samples.unknownField]))
           Samples.statusRows 0%nat 1%nat Samples.unknownField eq_refl eq_refl).
  by exists "", ": http_status.".
Defined.

Lemma sendRows_first_event {W}
    (rangeOrder : nat -> bigqueryrow -> list (string * goValue))
    (sender : bigquerySender W) (rows : list bigqueryrow) (w : W) :
  head (sendRows rangeOrder sender rows w).2 = Some (Put rows).
Proof.
  unfold sendRows, bind, Inserter_Put.
  destruct (bigquery.Put_ _ rows w) as [[e|] w1]; [|reflexivity].
  destruct (Contains e "no such field"); [|reflexivity].
  destruct (SchemaFlexible (sender_Config sender)); [|reflexivity].
  destruct (updateSchema rangeOrder _ rows w1) as [[[e'|] w2] ts]; [reflexivity|].
  unfold fmt_Printf, time_Sleep, emit.
  by destruct (bigquery.Put_ _ rows w2).
Qed.

(** X17. [consumeTraces] submits the rows built from the batch, one per
    span, as its first action, also when the batch has no span; it returns
    what [sendRows] returns and leaves the world [sendRows] leaves; and it
    prints the error, as its last action, exactly when there is one. *)
Theorem consumeTraces_run {W}
    (rangeOrder : nat -> bigqueryrow -> list (string * goValue))
    (sender : bigquerySender W) (td : ptrace.Traces) (w : W) :
  consumeTraces rangeOrder sender td w
  = ((sendRows rangeOrder sender (buildRows td) w).1.1,
     (sendRows rangeOrder sender (buildRows td) w).1.2,
     (sendRows rangeOrder sender (buildRows td) w).2
       ++ errorLine (sendRows rangeOrder sender (buildRows td) w).1.1)
  /\ head (consumeTraces rangeOrder sender td w).2 = Some (Put (buildRows td))
  /\ length (buildRows td) = length (leaves td)
  /\ putsOf (consumeTraces rangeOrder sender td w).2
     = putsOf (sendRows rangeOrder sender (buildRows td) w).2.
Proof.
  assert (Hrun : consumeTraces rangeOrder sender td w
    = ((sendRows rangeOrder sender (buildRows td) w).1.1,
       (sendRows rangeOrder sender (buildRows td) w).1.2,
       (sendRows rangeOrder sender (buildRows td) w).2
         ++ errorLine (sendRows rangeOrder sender (buildRows td) w).1.1)).
  { unfold consumeTraces, bind.
    destruct (sendRows rangeOrder sender (buildRows td) w) as [[[e|] w1] t];
      reflexivity. }
  split; [exact Hrun|]. rewrite Hrun. cbn [snd].
  pose proof (sendRows_first_event rangeOrder sender (buildRows td) w) as Hhd.
  destruct (sendRows rangeOrder sender (buildRows td) w) as [[err w1] t].
  cbn [fst snd] in *. split; [|split].
  - destruct t as [|ev t]; [discriminate Hhd|exact Hhd].
  - by rewrite buildRows_leaves, length_map.
  - rewrite putsOf_app. destruct err; simpl; by rewrite app_nil_r.
Qed.

Lemma Legacy_knownLoop_agrees schema kf kt :
  match Legacy.knownLoop schema kf kt, knownLoop schema kf kt with
  | inl known, inl known' => known = known'
  | inr err, inr err' =>
      exists field, err = Legacy.refusedType field /\ err' = refusedType field
  | _, _ => False
  end.
Proof.
  revert kf kt. induction schema as [|field schema IH]; intros kf kt; simpl.
  - reflexivity.
  - destruct (knownFieldType (bigquery.Type_ field)); [apply IH|].
    by exists field.
Qed.

(** The loops of the older [updateSchema] compute the state the newer
    ones compute and leave the world alone; their lines are the newer
    ones once the mismatch warning is reworded. *)
Lemma Legacy_fieldBody_run {W} st entry (w : W) :
  exists t,
    Legacy.fieldBody st entry w = (fieldStep st entry, w, t)
    /\ Legacy.newWording <$> t = Printf <$> fieldLines st entry.
Proof.
  unfold fieldStep, fieldLines, fieldBody, Legacy.fieldBody.
  destruct entry as [key value].
  unfold Legacy.oldBind, Legacy.oldRet, Legacy.shared, newFieldType, bind, ret,
    fmt_Printf, emit.
  destruct (index false (knownFields st) key); simpl.
  - destruct (negb _); eexists; split; reflexivity.
  - destruct (String.eqb key "ts"); [eexists; split; reflexivity|].
    destruct (typeSwitch value); eexists; split; reflexivity.
Qed.

Lemma Legacy_loop_run {W} entries st (w : W) :
  exists t,
    Legacy.oldRangeFold entries Legacy.fieldBody st w
    = (loopState entries st, w, t)
    /\ Legacy.newWording <$> t = Printf <$> loopLines entries st.
Proof.
  revert st. induction entries as [|entry entries IH]; intros st.
  - by exists [].
  - destruct (Legacy_fieldBody_run st entry w) as (t1 & H1 & E1).
    destruct (IH (fieldStep st entry)) as (t2 & H2 & E2).
    exists (t1 ++ t2). rewrite loopState_cons, loopLines_cons. simpl.
    unfold Legacy.oldBind. rewrite H1, H2. split; [reflexivity|].
    by rewrite !fmap_app, E1, E2.
Qed.

Lemma Legacy_rowsLoop_run {W} (views : list (list (string * goValue))) st
    (w : W) :
  exists t,
    Legacy.rowsLoop views st w = (loopState (concat views) st, w, t)
    /\ Legacy.newWording <$> t = Printf <$> loopLines (concat views) st.
Proof.
  unfold Legacy.rowsLoop.
  revert st. induction views as [|view views IH]; intros st.
  - by exists [].
  - destruct (Legacy_loop_run view st w) as (t1 & H1 & E1).
    destruct (IH (loopState view st)) as (t2 & H2 & E2).
    exists (t1 ++ t2). simpl. unfold Legacy.oldBind. rewrite H1, H2.
    rewrite loopState_app, loopLines_app. split; [reflexivity|].
    by rewrite !fmap_app, E1, E2.
Qed.

Lemma Legacy_newWording_Shared (t : list Event) :
  Legacy.newWording <$> (Legacy.Shared <$> t) = t.
Proof. induction t as [|e t IH]; [reflexivity|]. by rewrite !fmap_cons, IH. Qed.

(** The trace of the newer sender is the reworded trace of the older. *)
Ltac reworded :=
  rewrite ?fmap_app, ?fmap_cons, ?fmap_app, ?fmap_cons, ?fmap_nil, ?app_nil_r;
  reflexivity.

Lemma Legacy_updateSchema_agrees {W}
    (rangeOrder : nat -> bigqueryrow -> list (string * goValue))
    (table : bigquery.Table W) (rows : list bigqueryrow) (w : W) :
  exists err err' w2 t,
    Legacy.updateSchema rangeOrder table rows w = (err, w2, t)
    /\ updateSchema rangeOrder table rows w
       = (err', w2, Legacy.newWording <$> t)
    /\ (err = err'
        \/ exists field,
             err = Some (Legacy.refusedType field)
             /\ err' = Some (refusedType field)).
Proof.
  unfold Legacy.updateSchema, updateSchema, Legacy.oldBind, Legacy.shared, bind,
    Table_Metadata.
  destruct (bigquery.Metadata_ table w) as [[meta|e] w1]; simpl.
  - pose proof (Legacy_knownLoop_agrees (bigquery.Schema_ meta) ∅ ∅) as Hagree.
    destruct (Legacy.knownLoop (bigquery.Schema_ meta) ∅ ∅) as [known|err];
      destruct (knownLoop (bigquery.Schema_ meta) ∅ ∅) as [known'|err'];
      try contradiction.
    + subst known'. destruct known as [kf kt].
      rewrite rowsLoop_run.
      match goal with
      | |- context [Legacy.rowsLoop ?views ?st w1] =>
          destruct (Legacy_rowsLoop_run views st w1) as (t & -> & <-)
      end.
      destruct (Nat.eqb _ 0); simpl.
      * eexists _, _, _, _. split; [reflexivity|]. split; [|by left].
        reworded.
      * unfold Table_Update, fmt_Printf, emit. simpl.
        destruct (bigquery.Update_ table _ _ w1) as [[e|] w3]; simpl;
          (eexists _, _, _, _; split; [reflexivity|]; split; [|by left];
           reworded).
    + destruct Hagree as (field & -> & ->). simpl.
      eexists _, _, w1, _. repeat split. right. by exists field.
  - eexists _, _, w1, _. repeat split. by left.
Qed.

(** X18. The older [insertRows], with the older [updateSchema], reads no
    flag: whatever the configuration, it makes the remote calls and the
    waits of [sendRows] with the flag on, in the same order, and leaves the
    same world.  Its prints stand where those of [sendRows] stand and are
    the same lines, except the warning for a value that does not match its
    field, which the older file words differently ([newWording]).  The
    results are the same too, except that a refused field type of the
    fetched schema is reported in other words. *)
Theorem Legacy_insertRows_as_flexible_sendRows {W}
    (rangeOrder : nat -> bigqueryrow -> list (string * goValue))
    (sender : bigquerySender W) (rows : list bigqueryrow) (w : W) :
  exists err err' w' t,
    Legacy.insertRows rangeOrder sender rows w = (err, w', t)
    /\ sendRows rangeOrder (withSchemaFlexible sender) rows w
       = (err', w', Legacy.newWording <$> t)
    /\ (err = err'
        \/ exists field,
             err = Some (Legacy.refusedType field)
             /\ err' = Some (refusedType field)).
Proof.
  unfold Legacy.insertRows, sendRows, Legacy.oldBind, Legacy.shared, bind,
    Inserter_Put. simpl.
  change (bigqueryClient sender (Dataset (sender_Config sender))
            (Table (sender_Config sender))) with (tableOf sender).
  destruct (bigquery.Put_ (tableOf sender) rows w) as [[e|] w1];
    [|eexists _, _, _, _; by repeat split; [..|left]].
  destruct (Contains e "no such field");
    [|eexists _, _, _, _; by repeat split; [..|left]].
  destruct (Legacy_updateSchema_agrees rangeOrder (tableOf sender) rows w1)
    as (err & err' & w2 & t & -> & -> & Hres).
  destruct Hres as [<-|(field & -> & ->)].
  - destruct err as [e'|]; simpl.
    + eexists _, _, _, _. split; [reflexivity|]. split; [|by left].
      reworded.
    + unfold fmt_Printf, time_Sleep, emit.
      destruct (bigquery.Put_ (tableOf sender) rows w2) as [r w3].
      eexists _, _, _, _. split; [reflexivity|]. split; [|by left].
      reworded.
  - simpl. eexists _, _, _, _. split; [reflexivity|].
    split; [reworded|]. right. by exists field.
Qed.

(** ** The configuration *)

(** X19. [Validate] accepts a configuration exactly when its project,
    dataset and table are all non-empty, whatever the flag; it reports the
    first empty one, in that order; and the defaults of the factory are
    accepted, with the flag off. *)
Theorem Validate_accepts_iff (cfg : Config) :
  (Validate cfg = None
   <-> ProjectID cfg <> "" /\ Dataset cfg <> "" /\ Table cfg <> "")
  /\ (ProjectID cfg = "" ->
      Validate cfg = Some "projectID required for BigQuery API")
  /\ (ProjectID cfg <> "" -> Dataset cfg = "" ->
      Validate cfg = Some "dataset required for BigQuery API")
  /\ (ProjectID cfg <> "" -> Dataset cfg <> "" -> Table cfg = "" ->
      Validate cfg = Some "table required for BigQuery API")
  /\ Validate createDefaultConfig = None
  /\ SchemaFlexible createDefaultConfig = false.
Proof.
  unfold Validate.
  destruct (String.eqb_spec (ProjectID cfg) "") as [Hp|Hp];
    destruct (String.eqb_spec (Dataset cfg) "") as [Hd|Hd];
    destruct (String.eqb_spec (Table cfg) "") as [Ht|Ht];
    repeat split; try done; try tauto; intros (? & ? & ?); done.
Qed.
